(** * Smart swarm monitor: master-duration accounting and session logging

    A shallow embedding of the two Python programs of the repository:
    - [raspi_code.py], the device-side monitor (module [Device]);
    - [raspi_server_code.py], the web server with its log analyzer
      (module [Server]).

    Conventions of the embedding.
    - Time values ([time.time()], event timestamps, durations) are exact
      integers of one fixed time unit; the rounding of Python floats and of
      the [:.2f] format is not modelled.
    - A Python [str] is a [string] whose characters are code points below
      256.
    - Every reading of a clock is an explicit argument of the function that
      reads it.
    - A [dict] is a [gmap], a [set] a [gset]; a [dict] that is iterated in
      insertion order is an association list. *)

From Stdlib Require Import ZArith Lia Ascii String.
From stdpp Require Import gmap strings list fin_maps sorting.

Local Open Scope Z_scope.

(** ** Python string primitives used by both programs *)

Module Py.

(** [str.isspace] on one character with a code point below 256. *)
Definition isspace (c : ascii) : bool :=
  match N_of_ascii c with
  | 9 | 10 | 11 | 12 | 13 | 28 | 29 | 30 | 31 | 32 | 133 | 160 => true
  | _ => false
  end%N.

Fixpoint lstrip (s : string) : string :=
  match s with
  | EmptyString => EmptyString
  | String c s' => if isspace c then lstrip s' else s
  end.

Definition rstrip (s : string) : string := String.rev (lstrip (String.rev s)).

(** [s.strip()] *)
Definition strip (s : string) : string := rstrip (lstrip s).

(** [s.split(sep)] for a one-character separator. *)
Fixpoint split (sep : ascii) (s : string) : list string :=
  match s with
  | EmptyString => [EmptyString]
  | String c s' =>
      if Ascii.eqb c sep then EmptyString :: split sep s'
      else match split sep s' with
           | p :: ps => String c p :: ps
           | [] => [String c EmptyString]
           end
  end.

(** [s.startswith(p)] *)
Definition startswith (s p : string) : bool := String.prefix p s.

(** [sep in s] for a one-character [sep]. *)
Fixpoint contains (sep : ascii) (s : string) : bool :=
  match s with
  | EmptyString => false
  | String c s' => Ascii.eqb c sep || contains sep s'
  end.

Definition lower_char (c : ascii) : ascii :=
  let n := N_of_ascii c in
  if ((65 <=? n) && (n <=? 90))%N then ascii_of_N (n + 32) else c.

(** [s.lower()], on the letters A to Z. *)
Fixpoint lower (s : string) : string :=
  match s with
  | EmptyString => EmptyString
  | String c s' => String (lower_char c) (lower s')
  end.

Definition digit (c : ascii) : option Z :=
  let n := N_of_ascii c in
  if ((48 <=? n) && (n <=? 57))%N then Some (Z.of_N n - 48) else None.

(** The digits of a decimal literal: underscores are accepted only between
    two digits. *)
Fixpoint digits (acc : Z) (after_digit : bool) (s : string) : option Z :=
  match s with
  | EmptyString => if after_digit then Some acc else None
  | String c s' =>
      match digit c with
      | Some d => digits (10 * acc + d) true s'
      | None =>
          if Ascii.eqb c "_"%char && after_digit then digits acc false s'
          else None
      end
  end.

(** [int(s)]: [None] stands for [ValueError]. *)
Definition int (s : string) : option Z :=
  match strip s with
  | String "-"%char r => Z.opp <$> digits 0 false r
  | String "+"%char r => digits 0 false r
  | r => digits 0 false r
  end.

(** Truth value of a variable that holds [None] or a number. *)
Definition truthy (o : option Z) : bool :=
  match o with
  | Some t => negb (t =? 0)
  | None => false
  end.

(** [list.sort] / [sorted] with a key: the stable insertion of [x] into a
    list sorted by [key]. *)
Fixpoint insert_by {A} (le : A -> A -> bool) (x : A) (l : list A) : list A :=
  match l with
  | [] => [x]
  | y :: l' => if le x y then x :: l else y :: insert_by le x l'
  end.

Fixpoint sort_by {A} (le : A -> A -> bool) (l : list A) : list A :=
  match l with
  | [] => []
  | x :: l' => insert_by le x (sort_by le l')
  end.

(** [collections.deque(maxlen=n).append(x)]: a full deque drops its oldest
    element. *)
Definition deque_append {A} (maxlen : nat) (d : list A) (x : A) : list A :=
  if (length d <? maxlen)%nat then d ++ [x] else drop 1 (d ++ [x]).

End Py.

(** ** The device-side monitor, [raspi_code.py] *)

Module Device.

(** [ip_led_map], in its insertion order: address, colour name, GPIO pin. *)
Definition ip_led_map : list (string * (string * Z)) :=
  [ ("192.168.137.35", ("RED", 17));
    ("192.168.137.34", ("BLUE", 27));
    ("192.168.137.165", ("GREEN", 22)) ].

Definition MAX_DATA_POINTS : nat := 1000.

(** [for ip in ip_led_map] *)
Definition known_ips : list string := ip_led_map.*1.

(** [ip in ip_led_map] *)
Definition is_known (ip : string) : bool := bool_decide (ip ∈ known_ips).

(** [ip_led_map[ip][0] if ip in ip_led_map else "UNKNOWN"] *)
Definition name_of (ip : string) : string :=
  match list_find (λ e, e.1 = ip) ip_led_map with
  | Some (_, (_, (name, _))) => name
  | None => "UNKNOWN"
  end.

(** An entry of [graph_data_unified] and of [session_data]. *)
Record Point := mkPoint {
  timestamp : Z;
  ip : string;
  value : Z;
  is_master : bool
}.

(** The lines a session writes to its log file. *)
Inductive LogLine :=
| SessionStarted (now : Z)
| HeaderRow
| DataRow (now : Z) (ip name : string) (value : Z) (is_master : bool)
          (master_duration session_elapsed : Z)
| SessionEnded (now : Z)
| TotalDuration (session_duration : Z)
| SummaryTitle
| SummaryHeader
| SummaryRow (ip name : string) (duration : Z).

(** The file object held by [log_file]: its name and its [closed] flag. *)
Record FileObj := mkFile { file_name : string; closed : bool }.

(** The module-level variables of the program, and the files it wrote. *)
Record State := mkState {
  node_values : gmap string Z;
  node_is_master : gmap string bool;
  last_update_time : gmap string (option Z);
  graph_data_unified : list Point;
  master_duration_data : gmap string Z;
  graph_start_time : option Z;
  logging_active : bool;
  session_start_time : option Z;
  session_data : list Point;
  all_masters_in_session : gset string;
  log_file : option FileObj;
  log_filename : option string;
  disk : gmap string (list LogLine)
}.

Definition all_known {V} (v : V) : gmap string V :=
  list_to_map ((λ ip, (ip, v)) <$> known_ips).

Definition initial : State := {|
  node_values := all_known 0;
  node_is_master := all_known false;
  last_update_time := all_known None;
  graph_data_unified := [];
  master_duration_data := all_known 0;
  graph_start_time := None;
  logging_active := false;
  session_start_time := None;
  session_data := [];
  all_masters_in_session := ∅;
  log_file := None;
  log_filename := None;
  disk := ∅
|}.

(** *** [update_master_duration] *)

(** [for ip in ip_led_map: d[ip] = v] *)
Definition set_all {V} (v : V) (d : gmap string V) : gmap string V :=
  foldl (λ d ip, <[ip := v]> d) d known_ips.

(** [d[k] += x]; [None] stands for [KeyError]. *)
Definition add_to (k : string) (x : Z) (d : gmap string Z)
  : option (gmap string Z) :=
  match d !! k with
  | Some v => Some (<[k := v + x]> d)
  | None => None
  end.

(** The local variables of the scan. *)
Record Scan := mkScan {
  durations : gmap string Z;
  last_master : option string;
  last_time : option Z
}.

(** One iteration of [for point in session_data]. *)
Definition scan_point (cutoff_time : Z) (sc : Scan) (point : Point)
  : option Scan :=
  if bool_decide (cutoff_time ≤ timestamp point) && is_master point then
    d ← (if bool_decide (last_master sc = Some (ip point))
         then match last_time sc with
              | Some t => add_to (ip point) (timestamp point - t) (durations sc)
              | None => Some (durations sc)
              end
         else Some (durations sc));
    Some (mkScan d (Some (ip point)) (Some (timestamp point)))
  else Some sc.

Fixpoint scan_points (cutoff_time : Z) (sc : Scan) (points : list Point)
  : option Scan :=
  match points with
  | [] => Some sc
  | point :: rest =>
      sc' ← scan_point cutoff_time sc point; scan_points cutoff_time sc' rest
  end.

(** The credit of the open interval after the loop. *)
Definition credit_open (current_time : Z) (sc : Scan)
  : option (gmap string Z) :=
  match last_master sc, last_time sc with
  | Some m, Some t => add_to m (current_time - t) (durations sc)
  | _, _ => Some (durations sc)
  end.

(** The dictionary [update_master_duration] computes from a buffer. *)
Definition compute_durations (d : gmap string Z) (points : list Point)
    (cutoff_time current_time : Z) : option (gmap string Z) :=
  sc ← scan_points cutoff_time (mkScan (set_all 0 d) None None) points;
  credit_open current_time sc.

Definition set_master_duration_data (s : State) (d : gmap string Z) : State :=
  {| node_values := node_values s;
     node_is_master := node_is_master s;
     last_update_time := last_update_time s;
     graph_data_unified := graph_data_unified s;
     master_duration_data := d;
     graph_start_time := graph_start_time s;
     logging_active := logging_active s;
     session_start_time := session_start_time s;
     session_data := session_data s;
     all_masters_in_session := all_masters_in_session s;
     log_file := log_file s;
     log_filename := log_filename s;
     disk := disk s |}.

(** [update_master_duration()], with [current_time] the value [time.time()]
    returns. [None] stands for a [KeyError] that leaves the function. *)
Definition update_master_duration (s : State) (current_time : Z)
  : option State :=
  match logging_active s, session_start_time s with
  | true, Some cutoff_time =>
      set_master_duration_data s <$>
        compute_durations (master_duration_data s) (session_data s)
                          cutoff_time current_time
  | _, _ => Some s
  end.

(** *** Session logging *)

(** [log_file and not log_file.closed] *)
Definition file_open (f : option FileObj) : option string :=
  match f with
  | Some (mkFile name false) => Some name
  | _ => None
  end.

(** [log_file.close()] *)
Definition close_file (f : option FileObj) : option FileObj :=
  match f with
  | Some (mkFile name _) => Some (mkFile name true)
  | None => None
  end.

(** [log_file.write(line)] on the file named [name]. *)
Definition write_line (name : string) (line : LogLine)
    (d : gmap string (list LogLine)) : gmap string (list LogLine) :=
  <[name := default [] (d !! name) ++ [line]]> d.

Definition write_lines (name : string) (lines : list LogLine)
    (d : gmap string (list LogLine)) : gmap string (list LogLine) :=
  foldl (λ d line, write_line name line d) d lines.

(** [sorted(all_masters_in_session)] *)
Definition sorted_masters (masters : gset string) : list string :=
  Py.sort_by String.leb (elements masters).

(** [time.time() - session_start_time if session_start_time else 0] *)
Definition elapsed_since (start : option Z) (now : Z) : Z :=
  match start with
  | Some t => if Py.truthy start then now - t else 0
  | None => 0
  end.

(** [start_logging_session()]: [filename] is the name built from
    [datetime.now()], [iso_now] the time written in the first comment line
    and [start_time] the value of [time.time()]. The [open] is taken to
    succeed; the notification posted to the web server is not part of the
    state. *)
Definition start_logging_session (s : State) (filename : string)
    (iso_now start_time : Z) : State :=
  {| node_values := node_values s;
     node_is_master := node_is_master s;
     last_update_time := last_update_time s;
     graph_data_unified := [];
     master_duration_data := set_all 0 (master_duration_data s);
     graph_start_time := graph_start_time s;
     logging_active := true;
     session_start_time := Some start_time;
     session_data := [];
     all_masters_in_session := ∅;
     log_file := Some (mkFile filename false);
     log_filename := Some filename;
     disk := <[filename := [SessionStarted iso_now; HeaderRow]]> (disk s) |}.

(** The lines [stop_logging_session] writes before it closes the file. *)
Definition footer (s : State) (iso_now session_duration : Z) : list LogLine :=
  [SessionEnded iso_now; TotalDuration session_duration;
   SummaryTitle; SummaryHeader]
  ++ ((λ ip, SummaryRow ip (name_of ip)
               (default 0 (master_duration_data s !! ip)))
        <$> sorted_masters (all_masters_in_session s)).

(** [stop_logging_session()]. The report printed after the file is closed
    reads [ip_led_map[ip]] for every master of the session: with a master
    outside [ip_led_map] that raises [KeyError] and [logging_active] keeps
    its value. *)
Definition stop_logging_session (s : State) (now iso_now : Z) : State :=
  if logging_active s then
    let session_duration := elapsed_since (session_start_time s) now in
    {| node_values := node_values s;
       node_is_master := node_is_master s;
       last_update_time := last_update_time s;
       graph_data_unified := graph_data_unified s;
       master_duration_data := master_duration_data s;
       graph_start_time := graph_start_time s;
       logging_active :=
         negb (forallb is_known (sorted_masters (all_masters_in_session s)));
       session_start_time := session_start_time s;
       session_data := session_data s;
       all_masters_in_session := all_masters_in_session s;
       log_file :=
         match file_open (log_file s) with
         | Some _ => close_file (log_file s)
         | None => log_file s
         end;
       log_filename := log_filename s;
       disk :=
         match file_open (log_file s) with
         | Some name =>
             write_lines name (footer s iso_now session_duration) (disk s)
         | None => disk s
         end |}
  else s.

(** [log_data_point(ip, value, is_master)]: [iso_now] is [datetime.now()]
    and [now] is [time.time()]. *)
Definition log_data_point (s : State) (ip : string) (value : Z)
    (is_master : bool) (iso_now now : Z) : State :=
  match logging_active s, file_open (log_file s) with
  | true, Some name =>
      {| node_values := node_values s;
         node_is_master := node_is_master s;
         last_update_time := last_update_time s;
         graph_data_unified := graph_data_unified s;
         master_duration_data := master_duration_data s;
         graph_start_time := graph_start_time s;
         logging_active := logging_active s;
         session_start_time := session_start_time s;
         session_data := session_data s;
         all_masters_in_session :=
           if is_master then {[ip]} ∪ all_masters_in_session s
           else all_masters_in_session s;
         log_file := log_file s;
         log_filename := log_filename s;
         disk :=
           write_line name
             (DataRow iso_now ip (name_of ip) value is_master
                (default 0 (master_duration_data s !! ip))
                (elapsed_since (session_start_time s) now))
             (disk s) |}
  | _, _ => s
  end.

(** [button_pressed()]: the button toggles the session. *)
Definition button_pressed (s : State) (filename : string) (iso_now now : Z)
  : State :=
  if logging_active s then stop_logging_session s now iso_now
  else start_logging_session s filename iso_now now.

(** *** [udp_listener] *)

(** One received datagram: the decoded text, the sender's address, the
    value [current_time] read on reception and the two clock readings of
    [log_data_point]. *)
Record Datagram := mkDatagram {
  text : string;
  sender_ip : string;
  current_time : Z;
  log_now : Z;
  log_time : Z
}.

(** [int(msg.split(":")[1])]: [None] stands for [ValueError] or
    [IndexError]. *)
Definition payload_value (msg : string) : option Z :=
  Py.split ":" msg !! 1%nat ≫= Py.int.

(** The assignments of a well-formed message up to the append to
    [graph_data_unified]. *)
Definition record_reading (s : State) (sender : string) (value : Z)
    (master : bool) (now : Z) : State :=
  {| node_values := <[sender := value]> (node_values s);
     node_is_master :=
       if master then
         foldl (λ m ip, if bool_decide (ip ≠ sender)
                        then <[ip := false]> m else m)
               (<[sender := true]> (node_is_master s)) known_ips
       else <[sender := false]> (node_is_master s);
     last_update_time := <[sender := Some now]> (last_update_time s);
     graph_data_unified :=
       Py.deque_append MAX_DATA_POINTS (graph_data_unified s)
         (mkPoint now sender value master);
     master_duration_data := master_duration_data s;
     graph_start_time := graph_start_time s;
     logging_active := logging_active s;
     session_start_time := session_start_time s;
     session_data :=
       if logging_active s then
         Py.deque_append MAX_DATA_POINTS (session_data s)
           (mkPoint now sender value master)
       else session_data s;
     all_masters_in_session := all_masters_in_session s;
     log_file := log_file s;
     log_filename := log_filename s;
     disk := disk s |}.

(** [graph_start_time = current_time] when it is still [None]. *)
Definition mark_graph_start (s : State) (now : Z) : State :=
  {| node_values := node_values s;
     node_is_master := node_is_master s;
     last_update_time := last_update_time s;
     graph_data_unified := graph_data_unified s;
     master_duration_data := master_duration_data s;
     graph_start_time :=
       match graph_start_time s with
       | Some t => Some t
       | None => Some now
       end;
     logging_active := logging_active s;
     session_start_time := session_start_time s;
     session_data := session_data s;
     all_masters_in_session := all_masters_in_session s;
     log_file := log_file s;
     log_filename := log_filename s;
     disk := disk s |}.

(** The branch of a message with a recognised prefix. *)
Definition handle_reading (s : State) (msg : string) (master : bool)
    (dg : Datagram) : State :=
  match payload_value msg with
  | Some value =>
      let s' := record_reading s (sender_ip dg) value master (current_time dg) in
      if logging_active s then
        log_data_point s' (sender_ip dg) value master (log_now dg) (log_time dg)
      else s'
  | None => s
  end.

(** The body of the loop of [udp_listener] for one datagram. *)
Definition udp_receive (s : State) (dg : Datagram) : State :=
  let msg := Py.strip (text dg) in
  if is_known (sender_ip dg) then
    let s := mark_graph_start s (current_time dg) in
    if Py.startswith msg "MASTER:" then handle_reading s msg true dg
    else if Py.startswith msg "SENSOR:" || Py.startswith msg "LIGHT:"
    then handle_reading s msg false dg
    else s
  else s.

Definition udp_listener (s : State) (dgs : list Datagram) : State :=
  foldl udp_receive s dgs.

(** *** The live buffer, the display and the snapshot *)

(** The three constants below are numbers of seconds: the functions that
    read them take the second as the time unit. *)
Definition TIME_WINDOW : Z := 30.

Definition set_graph_data_unified (s : State) (d : list Point) : State :=
  {| node_values := node_values s;
     node_is_master := node_is_master s;
     last_update_time := last_update_time s;
     graph_data_unified := d;
     master_duration_data := master_duration_data s;
     graph_start_time := graph_start_time s;
     logging_active := logging_active s;
     session_start_time := session_start_time s;
     session_data := session_data s;
     all_masters_in_session := all_masters_in_session s;
     log_file := log_file s;
     log_filename := log_filename s;
     disk := disk s |}.

(** [while d and d[0]['timestamp'] < cutoff_time: d.popleft()] *)
Fixpoint popleft_older (cutoff_time : Z) (d : list Point) : list Point :=
  match d with
  | [] => []
  | point :: rest =>
      if bool_decide (timestamp point < cutoff_time)
      then popleft_older cutoff_time rest else d
  end.

(** [cleanup_old_data()], with [current_time] the value of [time.time()]. *)
Definition cleanup_old_data (s : State) (current_time : Z) : State :=
  match graph_start_time s with
  | None => s
  | Some _ =>
      set_graph_data_unified s
        (popleft_older (current_time - TIME_WINDOW) (graph_data_unified s))
  end.















(** *** The threads of the program *)

(** One turn of a thread: an iteration of [udp_listener], a call of
    [button_pressed], the [update_master_duration] of an iteration of
    [web_server_update_loop], an iteration of [cleanup_loop]. A turn runs
    to its end before the next one starts. *)
Inductive Event :=
| Received (dg : Datagram)
| ButtonPressed (filename : string) (iso_now now : Z)
| DurationsUpdated (current_time : Z)
| CleanedUp (current_time : Z).

(** [None] stands for an exception that leaves the turn. *)
Definition step (s : State) (e : Event) : option State :=
  match e with
  | Received dg => Some (udp_receive s dg)
  | ButtonPressed filename iso_now now =>
      Some (button_pressed s filename iso_now now)
  | DurationsUpdated current_time => update_master_duration s current_time
  | CleanedUp current_time => Some (cleanup_old_data s current_time)
  end.

Fixpoint run (s : State) (events : list Event) : option State :=
  match events with
  | [] => Some s
  | e :: rest => s' ← step s e; run s' rest
  end.

(** *** The LED matrix *)










End Device.

(** ** The web server, [raspi_server_code.py] *)

Module Server.

(** A data point of a snapshot's [graph_data], of [session_data_buffer] and
    of the analyzer's [data_points]. *)
Record Point := mkPoint {
  timestamp : Z;
  ip : string;
  name : string;
  value : Z;
  is_master : bool
}.

Inductive LogLine :=
| SessionStarted (now : Z)
| HeaderRow
| DataRow (timestamp : Z) (ip name : string) (value : Z) (is_master : bool)
          (master_duration session_elapsed : Z)
| SessionEnded (now : Z)
| TotalDuration (session_duration : Z)
| SummaryTitle
| SummaryHeader
| SummaryRow (ip name : string) (duration : Z).

Record FileObj := mkFile { file_name : string; closed : bool }.

(** The module-level variables of the server and the session logs it wrote.
    Of [latest_data] only the entry [logging_active] is kept: it is the one
    the functions below read. *)
Record State := mkState {
  latest_logging_active : bool;
  rpi_log_files_directory : option string;
  current_log_file : option FileObj;
  session_data_buffer : list Point;
  all_masters_in_session : gset string;
  session_start_time : option Z;
  disk : gmap string (list LogLine)
}.

Definition initial : State := {|
  latest_logging_active := false;
  rpi_log_files_directory := None;
  current_log_file := None;
  session_data_buffer := [];
  all_masters_in_session := ∅;
  session_start_time := None;
  disk := ∅
|}.

Definition local_log_directory : string := "webserver_logs".

(** [os.path.join(directory, filename)] for a relative [filename]. *)
Definition path_join (directory filename : string) : string :=
  if bool_decide (directory = "") then filename
  else if Py.startswith (String.rev directory) "/" then directory +:+ filename
  else directory +:+ "/" +:+ filename.

(** Truth value of a variable that holds [None] or a string. *)
Definition truthy_str (o : option string) : bool :=
  match o with
  | Some s => negb (bool_decide (s = ""))
  | None => false
  end.

(** [current_log_file and not current_log_file.closed] *)
Definition file_open (f : option FileObj) : option string :=
  match f with
  | Some (mkFile name false) => Some name
  | _ => None
  end.

Definition write_line (name : string) (line : LogLine)
    (d : gmap string (list LogLine)) : gmap string (list LogLine) :=
  <[name := default [] (d !! name) ++ [line]]> d.

Definition write_lines (name : string) (lines : list LogLine)
    (d : gmap string (list LogLine)) : gmap string (list LogLine) :=
  foldl (λ d line, write_line name line d) d lines.

Definition sorted_masters (masters : gset string) : list string :=
  Py.sort_by String.leb (elements masters).

Definition elapsed_since (start : option Z) (now : Z) : Z :=
  match start with
  | Some t => if Py.truthy start then now - t else 0
  | None => 0
  end.

(** *** The two accumulators of the session buffer *)

(** The local variables of a scan of the buffer. *)
Record Last := mkLast {
  last_master_ip : option string;
  last_time : option Z
}.

(** [calculate_master_duration_for_ip(target_ip)] *)
Definition duration_for_ip_step (target_ip : string) (acc : Z * Last)
    (point : Point) : Z * Last :=
  if is_master point then
    ((if bool_decide (last_master_ip acc.2 = Some (ip point))
         && Py.truthy (last_time acc.2)
         && bool_decide (ip point = target_ip)
      then acc.1 + (timestamp point - default 0 (last_time acc.2))
      else acc.1),
     mkLast (Some (ip point)) (Some (timestamp point)))
  else acc.

Definition calculate_master_duration_for_ip (buffer : list Point)
    (target_ip : string) : Z :=
  (foldl (duration_for_ip_step target_ip) (0, mkLast None None) buffer).1.

(** [if k not in d: d[k] = 0.0] followed by [d[k] += x]. *)
Definition credit (k : string) (x : Z) (d : gmap string Z) : gmap string Z :=
  <[k := default 0 (d !! k) + x]> d.

Definition durations_step (acc : gmap string Z * Last) (point : Point)
  : gmap string Z * Last :=
  if is_master point then
    ((match last_master_ip acc.2, last_time acc.2 with
      | Some m, Some t =>
          if truthy_str (Some m) && Py.truthy (Some t)
          then credit m (timestamp point - t) acc.1 else acc.1
      | _, _ => acc.1
      end),
     mkLast (Some (ip point)) (Some (timestamp point)))
  else acc.

(** [calculate_master_durations_from_buffer()], with [now] the value of
    [time.time()]. *)
Definition calculate_master_durations_from_buffer (buffer : list Point)
    (start : option Z) (now : Z) : gmap string Z :=
  let acc := foldl durations_step (∅, mkLast None None) buffer in
  match last_master_ip acc.2, last_time acc.2 with
  | Some m, Some t =>
      if truthy_str (Some m) && Py.truthy (Some t) && Py.truthy start
      then credit m (now - t) acc.1 else acc.1
  | _, _ => acc.1
  end.

(** *** Session logging *)

(** [start_local_logging_session()]: [filepath] is the path built from
    [datetime.now()]; the [open] is taken to succeed. *)
Definition start_local_logging_session (s : State) (filepath : string)
    (iso_now start_time : Z) : State :=
  {| latest_logging_active := latest_logging_active s;
     rpi_log_files_directory := rpi_log_files_directory s;
     current_log_file := Some (mkFile filepath false);
     session_data_buffer := [];
     all_masters_in_session := ∅;
     session_start_time := Some start_time;
     disk := <[filepath := [SessionStarted iso_now; HeaderRow]]> (disk s) |}.

(** The node name found in the session data. *)
Definition node_name_of (buffer : list Point) (target : string) : string :=
  match list_find (λ p, ip p = target) buffer with
  | Some (_, p) => name p
  | None => "UNKNOWN"
  end.

Definition footer (s : State) (now iso_now : Z) : list LogLine :=
  [SessionEnded iso_now;
   TotalDuration (elapsed_since (session_start_time s) now);
   SummaryTitle; SummaryHeader]
  ++ ((λ ip, SummaryRow ip (node_name_of (session_data_buffer s) ip)
               (default 0
                  (calculate_master_durations_from_buffer
                     (session_data_buffer s) (session_start_time s) now
                   !! ip)))
        <$> sorted_masters (all_masters_in_session s)).

(** [stop_local_logging_session()] *)
Definition stop_local_logging_session (s : State) (now iso_now : Z) : State :=
  match file_open (current_log_file s) with
  | Some name =>
      {| latest_logging_active := latest_logging_active s;
         rpi_log_files_directory := rpi_log_files_directory s;
         current_log_file := None;
         session_data_buffer := session_data_buffer s;
         all_masters_in_session := all_masters_in_session s;
         session_start_time := session_start_time s;
         disk := write_lines name (footer s now iso_now) (disk s) |}
  | None => s
  end.

(** [log_data_point_to_file(data_point)] *)
Definition log_data_point_to_file (now : Z) (s : State) (data_point : Point)
  : State :=
  match file_open (current_log_file s) with
  | Some path =>
      let buffer := session_data_buffer s ++ [data_point] in
      {| latest_logging_active := latest_logging_active s;
         rpi_log_files_directory := rpi_log_files_directory s;
         current_log_file := current_log_file s;
         session_data_buffer := buffer;
         all_masters_in_session :=
           if is_master data_point
           then {[ip data_point]} ∪ all_masters_in_session s
           else all_masters_in_session s;
         session_start_time := session_start_time s;
         disk :=
           write_line path
             (DataRow (timestamp data_point) (ip data_point) (name data_point)
                (value data_point) (is_master data_point)
                (calculate_master_duration_for_ip buffer (ip data_point))
                (elapsed_since (session_start_time s) now))
             (disk s) |}
  | None => s
  end.

(** *** [receive_data] *)

(** The keys of a snapshot payload that [receive_data] reads. *)
Record Payload := mkPayload {
  p_logging_active : option bool;
  p_log_directory : option string;
  p_graph_data : option (list Point)
}.

Inductive Request :=
| ButtonAction (action : string)
| DataUpdate (payload : Payload).

(** The clock readings of one request; they are taken to be equal within
    the request. *)
Record Clock := mkClock {
  filepath : string;
  iso_now : Z;
  now : Z
}.

(** [any(p['timestamp'] == point['timestamp'] and p['ip'] == point['ip']
         for p in session_data_buffer)] *)
Definition already_logged (buffer : list Point) (point : Point) : bool :=
  existsb (λ p, bool_decide (timestamp p = timestamp point)
                && bool_decide (ip p = ip point)) buffer.

(** One iteration of [for point in data['graph_data']]. *)
Definition log_if_new (now : Z) (s : State) (point : Point) : State :=
  if already_logged (session_data_buffer s) point then s
  else log_data_point_to_file now s point.

Definition set_latest (s : State) (active : bool) (dir : option string)
  : State :=
  {| latest_logging_active := active;
     rpi_log_files_directory := dir;
     current_log_file := current_log_file s;
     session_data_buffer := session_data_buffer s;
     all_masters_in_session := all_masters_in_session s;
     session_start_time := session_start_time s;
     disk := disk s |}.

(** [receive_data()] on a well-formed request. *)
Definition receive_data (s : State) (c : Clock) (r : Request) : State :=
  match r with
  | ButtonAction action =>
      if bool_decide (action = "start") then
        set_latest
          (start_local_logging_session s (filepath c) (iso_now c) (now c))
          true (rpi_log_files_directory s)
      else if bool_decide (action = "stop") then
        set_latest (stop_local_logging_session s (now c) (iso_now c))
          false (rpi_log_files_directory s)
      else s
  | DataUpdate data =>
      let s :=
        set_latest s
          (default (latest_logging_active s) (p_logging_active data))
          (match p_log_directory data with
           | Some d => Some d
           | None => rpi_log_files_directory s
           end) in
      if latest_logging_active s then
        foldl (log_if_new (now c)) s (default [] (p_graph_data data))
      else s
  end.

Definition serve (s : State) (rs : list (Clock * Request)) : State :=
  foldl (λ s cr, receive_data s cr.1 cr.2) s rs.

(** *** [analyze_log_file] *)

(** What [open(filepath, 'r')] followed by [readlines()] gives for a path
    that exists: an error, or the lines of the file. A path that does not
    exist has no entry in the file system. *)
Inductive FileContent :=
| Unreadable
| Lines (lines : list string).

(** [master_info[ip]] *)
Record Info := mkInfo {
  info_name : string;
  info_duration : Z;
  info_count : Z
}.

(** An entry of the [master_durations] of an analysis. *)
Record Entry := mkEntry {
  entry_ip : string;
  entry_name : string;
  entry_duration : Z;
  entry_count : Z
}.

(** The value [analyze_log_file] returns. [start_time] and [end_time] are
    the timestamps the code renders with [isoformat]. *)
Record Analysis := mkAnalysis {
  data_points : list Point;
  master_durations : gmap string Entry;
  start_time : Z;
  end_time : Z;
  duration : Z;
  total_points : nat;
  num_masters : nat
}.

(** The variables of the loop over the lines. [all_nodes] keeps its
    insertion order. *)
Record Parse := mkParse {
  in_data_section : bool;
  parsed_points : list Point;
  all_nodes : list (string * string)
}.

(** [s.endswith(p)] *)
Definition endswith (s p : string) : bool :=
  Py.startswith (String.rev s) (String.rev p).

Section Analyzer.

(** [datetime.fromisoformat(s).timestamp()], which depends on the time zone
    of the host; [None] stands for any exception it raises. *)
Variable fromisoformat_timestamp : string -> option Z.

(** The [try] block on the fields of a row: [None] stands for the
    [continue] of either handler. *)
Definition parse_row (parts : list string) : option Point :=
  timestamp_str ← parts !! 0%nat;
  ip ← parts !! 1%nat;
  name ← parts !! 2%nat;
  value ← parts !! 3%nat ≫= Py.int;
  is_master ← (λ f, bool_decide (Py.lower f = "true")) <$> parts !! 4%nat;
  timestamp ← fromisoformat_timestamp timestamp_str;
  Some (mkPoint timestamp ip name value is_master).

(** [if ip not in all_nodes: all_nodes[ip] = name] *)
Definition note_node (nodes : list (string * string)) (ip name : string)
  : list (string * string) :=
  if bool_decide (ip ∈ nodes.*1) then nodes else nodes ++ [(ip, name)].

(** One iteration of [for line in lines]. *)
Definition parse_line (st : Parse) (raw : string) : Parse :=
  let line := Py.strip raw in
  if Py.startswith line "#" || bool_decide (line = "") then st
  else if Py.startswith line "timestamp," then
    mkParse true (parsed_points st) (all_nodes st)
  else if in_data_section st && Py.contains "," line then
    let parts := Py.split "," line in
    if bool_decide (5 ≤ length parts)%nat then
      match parse_row parts with
      | Some point =>
          mkParse (in_data_section st) (parsed_points st ++ [point])
                  (note_node (all_nodes st) (ip point) (name point))
      | None => st
      end
    else st
  else st.

Definition parse_lines (lines : list string) : Parse :=
  foldl parse_line (mkParse false [] []) lines.

(** [data_points.sort(key=lambda x: x['timestamp'])] *)
Definition sort_points (points : list Point) : list Point :=
  Py.sort_by (λ p q, bool_decide (timestamp p ≤ timestamp q)) points.

(** [master_info[ip]['duration'] += d; master_info[ip]['count'] += 1];
    [None] stands for [KeyError]. *)
Definition bump (ip : string) (d : Z) (infos : gmap string Info)
  : option (gmap string Info) :=
  match infos !! ip with
  | Some i =>
      Some (<[ip := mkInfo (info_name i) (info_duration i + d)
                           (info_count i + 1)]> infos)
  | None => None
  end.

(** One iteration of the loop over the sorted points. *)
Definition info_step (acc : gmap string Info * Last) (point : Point)
  : option (gmap string Info * Last) :=
  if is_master point then
    infos ← (if bool_decide (last_master_ip acc.2 = Some (ip point))
                && Py.truthy (last_time acc.2)
             then bump (ip point)
                       (timestamp point - default 0 (last_time acc.2)) acc.1
             else Some acc.1);
    Some (infos, mkLast (Some (ip point)) (Some (timestamp point)))
  else Some acc.

Fixpoint info_scan (acc : gmap string Info * Last) (points : list Point)
  : option (gmap string Info * Last) :=
  match points with
  | [] => Some acc
  | point :: rest => acc' ← info_step acc point; info_scan acc' rest
  end.

(** [master_info], before the scan. *)
Definition initial_info (nodes : list (string * string)) : gmap string Info :=
  foldl (λ m e, <[e.1 := mkInfo e.2 0 0]> m) ∅ nodes.

(** [f"{info['name']} ({ip})"] *)
Definition entry_key (name ip : string) : string :=
  name +:+ " (" +:+ ip +:+ ")".

(** The loop that formats the durations by address; it follows the
    insertion order of [master_info]. *)
Definition format_durations (nodes : list (string * string))
    (infos : gmap string Info) : gmap string Entry :=
  foldl (λ m e,
           match infos !! e.1 with
           | Some i =>
               if bool_decide (0 < info_duration i)
               then <[entry_key (info_name i) e.1 :=
                        mkEntry e.1 (info_name i) (info_duration i)
                                (info_count i)]> m
               else m
           | None => m
           end) ∅ nodes.

(** The part of [analyze_log_file] after the file is read: [None] is the
    value returned for no data point and by the handler of an exception. *)
Definition analyze_points (points : list Point)
    (nodes : list (string * string)) : option Analysis :=
  match points with
  | [] => None
  | point :: _ =>
      let sorted := sort_points points in
      acc ← info_scan (initial_info nodes, mkLast None None) sorted;
      let durations := format_durations nodes acc.1 in
      let first := default point (head sorted) in
      let final := default point (last sorted) in
      Some (mkAnalysis sorted durations (timestamp first) (timestamp final)
              (timestamp final - timestamp first) (length sorted)
              (size durations))
  end.

(** [analyze_log_file(filepath)] on the file system [fs]. *)
Definition analyze_log_file (fs : gmap string FileContent) (filepath : string)
  : option Analysis :=
  match fs !! filepath with
  | Some (Lines lines) =>
      let st := parse_lines lines in
      analyze_points (parsed_points st) (all_nodes st)
  | Some Unreadable | None => None
  end.

(** The response of a route: the JSON body and the status code. *)
Inductive Response :=
| Error (message : string) (status : Z)
| Json (analysis : Analysis).

(** [analyze_log_endpoint(source, filename)] *)
Definition analyze_log_endpoint (s : State) (fs : gmap string FileContent)
    (source filename : string) : Response :=
  if negb (Py.startswith filename "swarm_log_") || negb (endswith filename ".csv")
  then Error "Invalid filename" 400
  else
    match
      (if bool_decide (source = "local")
       then inr (path_join local_log_directory filename)
       else if bool_decide (source = "rpi") then
         match rpi_log_files_directory s with
         | Some d =>
             if truthy_str (Some d) then inr (path_join d filename)
             else inl (Error "RPi directory not available" 404)
         | None => inl (Error "RPi directory not available" 404)
         end
       else inl (Error "Invalid source" 400))
    with
    | inl response => response
    | inr filepath =>
        match fs !! filepath with
        | None => Error "File not found" 404
        | Some _ =>
            match analyze_log_file fs filepath with
            | None => Error "Could not analyze log file" 500
            | Some analysis => Json analysis
            end
        end
    end.

End Analyzer.

End Server.

(** ** A host for the examples *)

Module Host.

Definition two_digits (a b : ascii) : option Z :=
  x ← Py.digit a; y ← Py.digit b; Some (10 * x + y).

Definition is_leap (year : Z) : bool :=
  (year mod 4 =? 0) && (negb (year mod 100 =? 0) || (year mod 400 =? 0)).

Definition days_in_month (year month : Z) : Z :=
  if bool_decide (month ∈ [1; 3; 5; 7; 8; 10; 12]) then 31
  else if bool_decide (month ∈ [4; 6; 9; 11]) then 30
  else if month =? 2 then (if is_leap year then 29 else 28)
  else 0.

(** The number of days from 1970-01-01 to the given day of the proleptic
    Gregorian calendar. *)
Definition days_from_civil (year month day : Z) : Z :=
  let y := if month <=? 2 then year - 1 else year in
  let era := y / 400 in
  let yoe := y - era * 400 in
  let doy := (153 * ((month + 9) mod 12) + 2) / 5 + day - 1 in
  era * 146097 + (yoe * 365 + yoe / 4 - yoe / 100 + doy) - 719468.

(** [datetime.fromisoformat(s).timestamp()] on a host whose time zone is
    UTC, for the strings [isoformat] writes for a whole number of seconds,
    [YYYY-MM-DDTHH:MM:SS]. The examples use no other string; on one this
    instance answers [None]. *)
Definition fromisoformat_timestamp (s : string) : option Z :=
  match list_ascii_of_string s with
  | [y1; y2; y3; y4; c1; m1; m2; c2; d1; d2; c3; h1; h2; c4; n1; n2; c5;
     s1; s2] =>
      if Ascii.eqb c1 "-" && Ascii.eqb c2 "-" && Ascii.eqb c3 "T"
         && Ascii.eqb c4 ":" && Ascii.eqb c5 ":" then
        hi ← two_digits y1 y2; lo ← two_digits y3 y4;
        month ← two_digits m1 m2; day ← two_digits d1 d2;
        hour ← two_digits h1 h2; minute ← two_digits n1 n2;
        second ← two_digits s1 s2;
        let year := 100 * hi + lo in
        if (1 <=? year) && (1 <=? day) && (day <=? days_in_month year month)
           && (hour <=? 23) && (minute <=? 59) && (second <=? 59)
        then Some (86400 * days_from_civil year month day
                   + 3600 * hour + 60 * minute + second)
        else None
      else None
  | _ => None
  end.

End Host.

(** ** Notions of the statements *)

(** *** The accumulator in the words of the specification *)

(** The pairwise step: a master sample credits its node with the time
    since the previous master sample when that one came from the same
    node. *)
Definition step_credit (target : string) (prev : option (string * Z))
    (sample : string * Z) : Z :=
  match prev with
  | Some (m0, t0) =>
      if bool_decide (m0 = sample.1 ∧ sample.1 = target)
      then sample.2 - t0 else 0
  | None => 0
  end.

Fixpoint pairwise_credit (target : string) (prev : option (string * Z))
    (samples : list (string * Z)) : Z :=
  match samples with
  | [] => 0
  | sample :: rest =>
      step_credit target prev sample + pairwise_credit target (Some sample) rest
  end.

(** The last master sample seen so far. *)
Definition last_sample (prev : option (string * Z))
    (samples : list (string * Z)) : option (string * Z) :=
  match last samples with
  | Some sample => Some sample
  | None => prev
  end.

(** The final step: the open interval from the last master sample to
    [now]. *)
Definition open_credit (target : string) (now : Z)
    (final : option (string * Z)) : Z :=
  match final with
  | Some (m, t) => if bool_decide (m = target) then now - t else 0
  | None => 0
  end.

(** The master samples a scan of the device looks at: the address and the
    timestamp of the master events at or after the start of the window. *)
Definition samples (cutoff_time : Z) (points : list Device.Point)
  : list (string * Z) :=
  (λ p, (Device.ip p, Device.timestamp p))
    <$> filter (λ p, cutoff_time ≤ Device.timestamp p)
          (filter (λ p, Device.is_master p = true) points).

(** The master samples the analyzer looks at. *)
Definition master_samples (points : list Server.Point) : list (string * Z) :=
  (λ p, (Server.ip p, Server.timestamp p))
    <$> filter (λ p, Server.is_master p = true) points.

(** *** The ingest loop *)

(** [node_is_master] after a well-formed [MASTER] message of [sender]. *)
Definition claim_master (sender : string) (m : gmap string bool)
  : gmap string bool :=
  foldl (λ m ip, if bool_decide (ip ≠ sender) then <[ip := false]> m else m)
        (<[sender := true]> m) Device.known_ips.

(** At most one node holds the master flag, and only known nodes have a
    flag at all. *)
Definition one_master (m : gmap string bool) : Prop :=
  (∀ k, is_Some (m !! k) → k ∈ Device.known_ips)
  ∧ ∀ i j, m !! i = Some true → m !! j = Some true → i = j.

(** *** The session recorder of the server *)







(** *** The analyzer *)

(** One iteration of the loop over the lines, as a function of the fields
    of the stripped line. *)
Definition parse_fields (iso : string → option Z) (st : Server.Parse)
    (parts : list string) : Server.Parse :=
  if Py.startswith (hd EmptyString parts) "#"
     || bool_decide (parts = [EmptyString]) then st
  else if bool_decide (hd EmptyString parts = "timestamp")
          && bool_decide (2 ≤ length parts)%nat then
    Server.mkParse true (Server.parsed_points st) (Server.all_nodes st)
  else if Server.in_data_section st && bool_decide (2 ≤ length parts)%nat then
    if bool_decide (5 ≤ length parts)%nat then
      match Server.parse_row iso parts with
      | Some point =>
          Server.mkParse (Server.in_data_section st)
            (Server.parsed_points st ++ [point])
            (Server.note_node (Server.all_nodes st) (Server.ip point)
               (Server.name point))
      | None => st
      end
    else st
  else st.

(** Two lines whose fields agree everywhere but in the sixth column, the
    one of [master_duration_seconds]. *)
Definition same_but_duration_column (raw1 raw2 : string) : Prop :=
  length (Py.split "," (Py.strip raw1)) = length (Py.split "," (Py.strip raw2))
  ∧ ∀ i, i ≠ 5%nat →
         Py.split "," (Py.strip raw1) !! i = Py.split "," (Py.strip raw2) !! i.

(** A log without data rows: every line is a comment, a blank line or the
    header. *)
Definition header_only (lines : list string) : Prop :=
  Forall (λ raw, Py.startswith (Py.strip raw) "#" = true
                 ∨ Py.strip raw = EmptyString
                 ∨ Py.startswith (Py.strip raw) "timestamp," = true) lines.

(** *** The analyzer against the live accumulator *)


(** [all_nodes] after the loop over the lines, from the points it kept. *)
Definition nodes_of (points : list Server.Point) : list (string * string) :=
  foldl (λ nodes p, Server.note_node nodes (Server.ip p) (Server.name p))
        [] points.


Definition by_timestamp (p q : Server.Point) : Prop :=
  Server.timestamp p ≤ Server.timestamp q.



(** *** The sessions of the device *)

Definition is_device_summary_title (line : Device.LogLine) : bool :=
  match line with
  | Device.SummaryTitle => true
  | _ => false
  end.

(** The number of summary footers of a log of the device. *)
Definition device_footers (log : list Device.LogLine) : nat :=
  length (filter (λ line, is_device_summary_title line = true) log).

(** The address, the value and the flag of the data rows of a log of the
    device, in the order of the rows. *)
Definition device_row (line : Device.LogLine)
  : option (string * Z * bool) :=
  match line with
  | Device.DataRow _ ip _ value is_master _ _ => Some (ip, value, is_master)
  | _ => None
  end.

Definition device_rows (log : list Device.LogLine)
  : list (string * Z * bool) :=
  omap device_row log.

(** What the steps of the device keep true. *)
Record device_inv (s : Device.State) : Prop := {
  dev_values : ∀ k, k ∈ Device.known_ips → is_Some (Device.node_values s !! k);
  dev_flags :
    ∀ k, k ∈ Device.known_ips → is_Some (Device.node_is_master s !! k);
  dev_one_master : one_master (Device.node_is_master s);
  dev_seen :
    ∀ k, k ∈ Device.known_ips → is_Some (Device.last_update_time s !! k);
  dev_durations :
    ∀ k, k ∈ Device.known_ips → is_Some (Device.master_duration_data s !! k);
  dev_graph :
    Forall (λ p, Device.ip p ∈ Device.known_ips) (Device.graph_data_unified s);
  dev_graph_length :
    (length (Device.graph_data_unified s) ≤ Device.MAX_DATA_POINTS)%nat;
  dev_session :
    Forall (λ p, Device.ip p ∈ Device.known_ips) (Device.session_data s);
  dev_session_length :
    (length (Device.session_data s) ≤ Device.MAX_DATA_POINTS)%nat;
  dev_masters :
    ∀ k, k ∈ Device.all_masters_in_session s → k ∈ Device.known_ips;
  dev_open :
    Device.file_open (Device.log_file s)
    = if Device.logging_active s then Device.log_filename s else None;
  dev_active :
    Device.logging_active s = true →
    is_Some (Device.log_filename s) ∧ is_Some (Device.session_start_time s);
  dev_disk :
    ∀ path log, Device.disk s !! path = Some log →
      device_footers log
      = if bool_decide (Device.file_open (Device.log_file s) = Some path)
        then 0%nat else 1%nat;
  dev_open_log :
    ∀ path, Device.file_open (Device.log_file s) = Some path →
            is_Some (Device.disk s !! path)
}.


(** The live duration of a node in the words of the specification: the
    pairwise credits of the master samples of the window and the open
    interval after the last of them. *)
Definition live_duration (k : string) (cutoff now : Z)
    (points : list Device.Point) : Z :=
  pairwise_credit k None (samples cutoff points)
  + open_credit k now (last (samples cutoff points)).


(** The addresses of the summary rows of a log of the device, in the order
    of the rows. *)
Definition device_summary_ip (line : Device.LogLine) : option string :=
  match line with
  | Device.SummaryRow ip _ _ => Some ip
  | _ => None
  end.

Definition device_summary_ips (log : list Device.LogLine) : list string :=
  omap device_summary_ip log.

(** While a log is open, the masters of the session are the nodes with a
    master row in the open log. *)
Definition device_masters_match (s : Device.State) : Prop :=
  ∀ path, Device.file_open (Device.log_file s) = Some path →
    ∀ k, k ∈ Device.all_masters_in_session s
         ↔ ∃ value,
             (k, value, true) ∈ device_rows (default [] (Device.disk s !! path)).

(** *** The summary of the server *)

(** The time at which the hold of a master sample ends: the next master
    sample, of any node, or [now]. *)
Definition hold_end (now : Z) (rest : list (string * Z)) : Z :=
  match rest with
  | [] => now
  | (_, t) :: _ => t
  end.

(** The time a node holds the master role when each master sample holds
    until the next one. *)
Fixpoint hold_credit (target : string) (now : Z) (samples : list (string * Z))
  : Z :=
  match samples with
  | [] => 0
  | (m, t) :: rest =>
      (if bool_decide (m = target) then hold_end now rest - t else 0)
      + hold_credit target now rest
  end.

(** The addresses of the summary rows of a log, in the order of the
    rows. *)
Definition summary_ip (line : Server.LogLine) : option string :=
  match line with
  | Server.SummaryRow ip _ _ => Some ip
  | _ => None
  end.

Definition summary_ips (log : list Server.LogLine) : list string :=
  omap summary_ip log.


(** The masters of the session are the nodes with a master reading in the
    session buffer. *)
Definition masters_match (s : Server.State) : Prop :=
  ∀ k, k ∈ Server.all_masters_in_session s
       ↔ ∃ p, p ∈ Server.session_data_buffer s
              ∧ Server.is_master p = true ∧ Server.ip p = k.

(** ** Sample sessions and logs for the examples *)

Module Sample.

Definition red : string := "192.168.137.35".
Definition blue : string := "192.168.137.34".

(** 2024-12-05T10:30:00 on a host in UTC. *)
Definition t0 : Z := 1733394600.

(** A datagram all of whose clock readings are [t]. *)
Definition datagram (t : Z) (sender text : string) : Device.Datagram :=
  Device.mkDatagram text sender t t t.

(** The device after a session started at [t0] and one master message. *)
Definition single_master_session : Device.State :=
  Device.udp_listener
    (Device.start_logging_session Device.initial
       "swarm_log_20241205_103000.csv" t0 t0)
    [datagram (t0 + 5) red "MASTER:100"].

(** The device after a session started at [t0], two master messages of one
    node and a reading of another. *)
Definition chained_session : Device.State :=
  Device.udp_listener
    (Device.start_logging_session Device.initial
       "swarm_log_20241205_103000.csv" t0 t0)
    [datagram (t0 + 5) red "MASTER:100";
     datagram (t0 + 8) red "MASTER:120";
     datagram (t0 + 10) blue "SENSOR:90"].


(** The end of a line, as [readlines] keeps it. *)
Definition eol : string := String (ascii_of_nat 10) EmptyString.

Definition header_line : string :=
  "timestamp,node_ip,node_name,sensor_value,is_master,master_duration_seconds,session_elapsed_seconds"
  +:+ eol.

(** The log the device writes for [single_master_session] stopped at
    [t0 + 12], for durations updated at the stop. *)
Definition single_master_log : list string :=
  [ "# Session started: 2024-12-05T10:30:00" +:+ eol;
    header_line;
    "2024-12-05T10:30:05,192.168.137.35,RED,100,True,0.00,5.00" +:+ eol;
    eol;
    "# Session ended: 2024-12-05T10:30:12" +:+ eol;
    "# Total session duration: 12.00 seconds" +:+ eol;
    eol;
    "# MASTER SUMMARY (Devices that became MASTER):" +:+ eol;
    "# IP Address,Name,Total Duration (seconds)" +:+ eol;
    "# 192.168.137.35,RED,7.00" +:+ eol ].

(** A log of a session without data, as a start followed by a stop leaves
    it. *)
Definition empty_session_log : list string :=
  [ "# Session started: 2024-12-05T10:30:00" +:+ eol;
    header_line;
    eol;
    "# Session ended: 2024-12-05T10:30:12" +:+ eol;
    "# Total session duration: 12.00 seconds" +:+ eol;
    eol;
    "# MASTER SUMMARY (Devices that became MASTER):" +:+ eol;
    "# IP Address,Name,Total Duration (seconds)" +:+ eol ].

(** Two logs that differ in the column [master_duration_seconds] only. *)
Definition chained_log (d1 d2 : string) : list string :=
  [ "# Session started: 2024-12-05T10:30:00" +:+ eol;
    header_line;
    "2024-12-05T10:30:05,192.168.137.35,RED,100,True," +:+ d1 +:+ ",5.00"
      +:+ eol;
    "2024-12-05T10:30:08,192.168.137.35,RED,120,True," +:+ d2 +:+ ",8.00"
      +:+ eol ].

Definition files : gmap string Server.FileContent :=
  {[ "webserver_logs/swarm_log_20241205_103000.csv"
       := Server.Lines single_master_log;
     "webserver_logs/swarm_log_empty.csv" := Server.Lines empty_session_log;
     "webserver_logs/swarm_log_unreadable.csv" := Server.Unreadable;
     "webserver_logs/swarm_log_chained.csv"
       := Server.Lines (chained_log "0.00" "3.00");
     "webserver_logs/swarm_log_edited.csv"
       := Server.Lines (chained_log "999.99" "-1") ]}.

(** The clock readings of two requests to the server. *)
Definition clock1 : Server.Clock :=
  Server.mkClock "webserver_logs/swarm_log_20251201_100000.csv" 100 100.
Definition clock2 : Server.Clock :=
  Server.mkClock "webserver_logs/swarm_log_20251201_100500.csv" 400 400.

Definition red_point : Server.Point := Server.mkPoint 105 red "RED" 100 true.

(** A snapshot that carries the same point twice. *)
Definition repeated_snapshot : Server.Request :=
  Server.DataUpdate
    (Server.mkPayload (Some true) None (Some [red_point; red_point])).

(** The analysis of the chained log. *)
Definition red_entry : Server.Entry := Server.mkEntry red "RED" 3 1.

Definition chained_analysis : Server.Analysis :=
  Server.mkAnalysis
    [Server.mkPoint (t0 + 5) red "RED" 100 true;
     Server.mkPoint (t0 + 8) red "RED" 120 true]
    {[ "RED (192.168.137.35)" := red_entry ]}
    (t0 + 5) (t0 + 8) 3 2 1.

(** A file with the rows of the chained session and no header line. *)
Definition headless_files : gmap string Server.FileContent :=
  {[ "webserver_logs/swarm_log_headless.csv"
       := Server.Lines
            [ "# Session started: 2024-12-05T10:30:00" +:+ eol;
              "2024-12-05T10:30:05,192.168.137.35,RED,100,True,0.00,5.00"
                +:+ eol;
              "2024-12-05T10:30:08,192.168.137.35,RED,120,True,0.00,8.00"
                +:+ eol ] ]}.

(** The interleaved master readings of a session that starts at [t0]. *)
Definition interleaved_buffer : list Server.Point :=
  [Server.mkPoint t0 red "RED" 100 true;
   Server.mkPoint (t0 + 5) blue "BLUE" 200 true;
   Server.mkPoint (t0 + 9) red "RED" 150 true].

(** The requests of a session of the server with one master reading. *)
Definition recorded_session : list (Server.Clock * Server.Request) :=
  [(clock1, Server.ButtonAction "start"); (clock1, repeated_snapshot)].

End Sample.


Lemma last_sample_cons prev sample rest :
  last_sample prev (sample :: rest) = last_sample (Some sample) rest.
Proof.
  unfold last_sample. destruct rest as [|s2 rest]; [done|].
  change (last (sample :: s2 :: rest)) with (last (s2 :: rest)).
  by destruct (last (s2 :: rest)) eqn:E; [|apply last_None in E].
Qed.

Lemma known_ips_eq :
  Device.known_ips = ["192.168.137.35"; "192.168.137.34"; "192.168.137.165"].
Proof. reflexivity. Qed.

Section DeviceAccumulator.
Import Device.

Lemma foldl_insert_lookup {V} (v : V) (ips : list string) (d : gmap string V) k :
  foldl (λ d ip, <[ip := v]> d) d ips !! k
  = if bool_decide (k ∈ ips) then Some v else d !! k.
Proof.
  revert d. induction ips as [|i ips IH]; intros d; cbn [foldl].
  - case_bool_decide; [set_solver | done].
  - rewrite IH. repeat case_bool_decide; try set_solver.
    + assert (i = k) as -> by set_solver. by rewrite lookup_insert_eq.
    + rewrite lookup_insert_ne; [done | set_solver].
Qed.

Lemma set_all_lookup {V} (v : V) (d : gmap string V) k :
  set_all v d !! k = if is_known k then Some v else d !! k.
Proof. apply foldl_insert_lookup. Qed.

Lemma samples_cons cutoff p pts :
  samples cutoff (p :: pts)
  = if bool_decide (cutoff ≤ timestamp p) && is_master p
    then (ip p, timestamp p) :: samples cutoff pts
    else samples cutoff pts.
Proof.
  unfold samples. rewrite filter_cons.
  destruct (is_master p) eqn:Hm; case_decide; try congruence.
  - rewrite filter_cons. rewrite andb_true_r.
    case_bool_decide; case_decide; try lia; done.
  - by rewrite andb_false_r.
Qed.

Lemma add_to_Some k x d v :
  d !! k = Some v → add_to k x d = Some (<[k := v + x]> d).
Proof. unfold add_to. by intros ->. Qed.

Lemma scan_points_credit cutoff pts : ∀ d prev,
  (∀ p, p ∈ pts → is_master p = true → cutoff ≤ timestamp p →
        is_Some (d !! ip p)) →
  ∃ d',
    scan_points cutoff (mkScan d (fst <$> prev) (snd <$> prev)) pts
    = Some (mkScan d' (fst <$> last_sample prev (samples cutoff pts))
                      (snd <$> last_sample prev (samples cutoff pts)))
    ∧ ∀ k, d' !! k
           = (λ v, v + pairwise_credit k prev (samples cutoff pts)) <$> d !! k.
Proof.
  induction pts as [|p pts IH]; intros d prev Hdom.
  - exists d. split; [done|]. intros k. cbn.
    destruct (d !! k); cbn; f_equal; lia.
  - cbn [scan_points]. rewrite samples_cons. unfold scan_point.
    destruct (bool_decide (cutoff ≤ timestamp p) && is_master p) eqn:Hsel.
    + apply andb_true_iff in Hsel as [Hc%bool_decide_eq_true Hm].
      destruct (Hdom p) as [v Hv]; [set_solver|done..|].
      cbn [last_master last_time durations].
      assert (∃ d1,
        (if bool_decide (fst <$> prev = Some (ip p))
         then match snd <$> prev with
              | Some t => add_to (ip p) (timestamp p - t) d
              | None => Some d
              end
         else Some d) = Some d1
        ∧ ∀ k, d1 !! k
               = (λ v, v + step_credit k prev (ip p, timestamp p)) <$> d !! k)
        as (d1 & -> & Hd1).
      { destruct prev as [[m0 t0]|]; cbn.
        - case_bool_decide as Heq.
          + simplify_eq. rewrite (add_to_Some _ _ _ v) by done.
            eexists; split; [done|]. intros k.
            destruct (decide (k = ip p)) as [->|Hne].
            * rewrite lookup_insert_eq, Hv. cbn.
              rewrite bool_decide_eq_true_2 by done. done.
            * rewrite lookup_insert_ne by done.
              rewrite bool_decide_eq_false_2 by naive_solver.
              destruct (d !! k); cbn; f_equal; lia.
          + eexists; split; [done|]. intros k.
            rewrite bool_decide_eq_false_2 by naive_solver.
            destruct (d !! k); cbn; f_equal; lia.
        - exists d. split; [done|]. intros k.
          destruct (d !! k); cbn; f_equal; lia. }
      cbn [mbind option_bind].
      destruct (IH d1 (Some (ip p, timestamp p))) as (d' & Hscan & Hd').
      { intros q Hq Hqm Hqc. rewrite Hd1.
        destruct (Hdom q) as [w Hw]; [set_solver|done..|]. rewrite Hw. by eexists. }
      cbn [fmap option_fmap option_map fst snd] in Hscan. rewrite Hscan.
      exists d'. split.
      * by rewrite last_sample_cons.
      * intros k. rewrite Hd', Hd1. cbn [pairwise_credit].
        destruct (d !! k); cbn; f_equal; lia.
    + cbn [mbind option_bind].
      destruct (IH d prev) as (d' & Hscan & Hd'); [set_solver|].
      exists d'. done.
Qed.

Lemma is_known_true k : is_known k = true ↔ k ∈ known_ips.
Proof. unfold is_known. apply bool_decide_eq_true. Qed.

(** What [update_master_duration] computes, in the words of the
    specification: the pairwise credits plus the open interval. *)
Lemma compute_durations_credit d pts cutoff now :
  (∀ p, p ∈ pts → is_master p = true → cutoff ≤ timestamp p →
        ip p ∈ known_ips) →
  ∃ live,
    compute_durations d pts cutoff now = Some live
    ∧ ∀ k, k ∈ known_ips →
           live !! k
           = Some (pairwise_credit k None (samples cutoff pts)
                   + open_credit k now (last (samples cutoff pts))).
Proof.
  intros Hknown. unfold compute_durations.
  destruct (scan_points_credit cutoff pts (set_all 0 d) None)
    as (d' & Hscan & Hd').
  { intros p Hp Hm Hc. rewrite set_all_lookup.
    apply Hknown, is_known_true in Hc as ->; [by eexists|done..]. }
  cbn [fmap option_fmap option_map] in Hscan. rewrite Hscan.
  cbn [mbind option_bind]. unfold credit_open, last_sample.
  cbn [last_master last_time durations].
  destruct (last (samples cutoff pts)) as [[m t]|] eqn:Hlast;
    cbn [fmap option_fmap option_map fst snd].
  - assert (m ∈ known_ips) as Hm.
    { apply last_Some_elem_of in Hlast. unfold samples in Hlast.
      apply list_elem_of_fmap in Hlast as (p & [= -> ->] & Hp).
      apply list_elem_of_filter in Hp as [Hc Hp].
      apply list_elem_of_filter in Hp as [Hm Hp]. by apply Hknown. }
    assert (d' !! m = Some (0 + pairwise_credit m None (samples cutoff pts)))
      as Hdm.
    { rewrite Hd', set_all_lookup.
      by apply is_known_true in Hm as ->. }
    rewrite (add_to_Some _ _ _ _ Hdm). eexists; split; [done|].
    intros k Hk. cbn [open_credit].
    destruct (decide (m = k)) as [->|Hne].
    + rewrite lookup_insert_eq, bool_decide_eq_true_2 by done. f_equal; lia.
    + rewrite lookup_insert_ne, bool_decide_eq_false_2 by done.
      rewrite Hd', set_all_lookup. apply is_known_true in Hk as ->.
      cbn. f_equal; lia.
  - exists d'. split; [done|]. intros k Hk.
    rewrite Hd', set_all_lookup. apply is_known_true in Hk as ->.
    cbn. f_equal; lia.
Qed.

Lemma update_master_duration_active s now cutoff :
  logging_active s = true → session_start_time s = Some cutoff →
  update_master_duration s now
  = set_master_duration_data s
      <$> compute_durations (master_duration_data s) (session_data s) cutoff now.
Proof. unfold update_master_duration. by intros -> ->. Qed.

End DeviceAccumulator.



Lemma samples_no_master cutoff pts :
  filter (λ p, Device.is_master p = true) pts = [] → samples cutoff pts = [].
Proof. unfold samples. by intros ->. Qed.

Lemma samples_single cutoff pts m :
  filter (λ p, Device.is_master p = true) pts = [m] →
  cutoff ≤ Device.timestamp m →
  samples cutoff pts = [(Device.ip m, Device.timestamp m)].
Proof.
  unfold samples. intros -> Hc. rewrite filter_cons.
  by rewrite decide_True.
Qed.

(** C3. In a running session whose buffer holds exactly one master event,
    of a known node and not older than the session start, the scan of
    [update_master_duration] credits nothing (every known node is at 0
    after the loop, which only remembers the event) and the final step
    credits that node with [now] minus the timestamp of the event; every
    other known node is left at 0. With no master event in the buffer, the
    empty buffer included, every known node is left at 0. *)
Theorem single_master_event (s : Device.State) (cutoff now : Z) :
  Device.logging_active s = true →
  Device.session_start_time s = Some cutoff →
  (∀ m,
     filter (λ p, Device.is_master p = true) (Device.session_data s) = [m] →
     Device.ip m ∈ Device.known_ips →
     cutoff ≤ Device.timestamp m →
     ∃ sc s',
       Device.scan_points cutoff
         (Device.mkScan (Device.set_all 0 (Device.master_duration_data s))
            None None)
         (Device.session_data s) = Some sc
       ∧ (∀ k, k ∈ Device.known_ips → Device.durations sc !! k = Some 0)
       ∧ Device.last_master sc = Some (Device.ip m)
       ∧ Device.last_time sc = Some (Device.timestamp m)
       ∧ Device.update_master_duration s now = Some s'
       ∧ Device.master_duration_data s' !! Device.ip m
         = Some (now - Device.timestamp m)
       ∧ ∀ k, k ∈ Device.known_ips → k ≠ Device.ip m →
              Device.master_duration_data s' !! k = Some 0)
  ∧ (filter (λ p, Device.is_master p = true) (Device.session_data s) = [] →
     ∃ s',
       Device.update_master_duration s now = Some s'
       ∧ ∀ k, k ∈ Device.known_ips →
              Device.master_duration_data s' !! k = Some 0).
Proof.
  intros Hact Hstart. split.
  - intros m Hm Hknown Hc.
    assert (∀ p, p ∈ Device.session_data s → Device.is_master p = true →
                 Device.ip p ∈ Device.known_ips) as Hall.
    { intros p Hp Hpm.
      assert (p ∈ filter (λ p, Device.is_master p = true)
                         (Device.session_data s)) as Hin
        by by apply list_elem_of_filter.
      rewrite Hm in Hin. by apply list_elem_of_singleton in Hin as ->. }
    destruct (scan_points_credit cutoff (Device.session_data s)
                (Device.set_all 0 (Device.master_duration_data s)) None)
      as (d' & Hscan & Hd').
    { intros p Hp Hpm _. rewrite set_all_lookup.
      apply Hall, is_known_true in Hpm as ->; [by eexists|done]. }
    rewrite (samples_single _ _ m) in Hscan, Hd' by done.
    cbn in Hscan.
    rewrite (update_master_duration_active s now cutoff) by done.
    destruct (compute_durations_credit (Device.master_duration_data s)
                (Device.session_data s) cutoff now) as (live & -> & Hlive).
    { intros p Hp Hpm _. by apply Hall. }
    rewrite (samples_single _ _ m) in Hlive by done.
    eexists _, _. split; [exact Hscan|]. cbn.
    split; [|split; [done|split; [done|split; [done|split]]]].
    + intros k Hk. rewrite Hd', set_all_lookup.
      apply is_known_true in Hk as ->. cbn. f_equal; lia.
    + rewrite Hlive by done. cbn.
      rewrite bool_decide_eq_true_2 by done. f_equal; lia.
    + intros k Hk Hne. rewrite Hlive by done. cbn.
      by rewrite bool_decide_eq_false_2 by done.
  - intros Hnone.
    rewrite (update_master_duration_active s now cutoff) by done.
    destruct (compute_durations_credit (Device.master_duration_data s)
                (Device.session_data s) cutoff now) as (live & -> & Hlive).
    { intros p Hp Hpm _.
      assert (p ∈ filter (λ p, Device.is_master p = true)
                         (Device.session_data s)) as Hin
        by by apply list_elem_of_filter.
      rewrite Hnone in Hin. by apply elem_of_nil in Hin. }
    rewrite (samples_no_master _ _ Hnone) in Hlive.
    eexists. split; [done|]. intros k Hk. cbn. by rewrite Hlive.
Qed.


(** * Properties of the ingest loop of the device *)

Section Ingest.
Import Device.


(** The effect of one datagram on [node_is_master]. *)
Lemma udp_receive_node_is_master s dg :
  node_is_master (udp_receive s dg)
  = let msg := Py.strip (text dg) in
    if is_known (sender_ip dg) then
      if Py.startswith msg "MASTER:" then
        match payload_value msg with
        | Some _ => claim_master (sender_ip dg) (node_is_master s)
        | None => node_is_master s
        end
      else if Py.startswith msg "SENSOR:" || Py.startswith msg "LIGHT:" then
        match payload_value msg with
        | Some _ => <[sender_ip dg := false]> (node_is_master s)
        | None => node_is_master s
        end
      else node_is_master s
    else node_is_master s.
Proof.
  unfold udp_receive, handle_reading, log_data_point. cbn zeta.
  repeat (case_match; try done).
Qed.

Lemma foldl_reset_lookup sender ips (m : gmap string bool) k :
  foldl (λ m ip, if bool_decide (ip ≠ sender) then <[ip := false]> m else m)
        m ips !! k
  = if bool_decide (k ∈ ips ∧ k ≠ sender) then Some false else m !! k.
Proof.
  revert m. induction ips as [|i ips IH]; intros m; cbn [foldl].
  - case_bool_decide as H; [|done]. destruct H as [H _]. by apply elem_of_nil in H.
  - rewrite IH. destruct (decide (k ∈ ips ∧ k ≠ sender)) as [[Hin Hne]|Hn].
    + rewrite !bool_decide_eq_true_2; [done| |done]. split; [by right|done].
    + rewrite (bool_decide_eq_false_2 (k ∈ ips ∧ _)) by done.
      destruct (decide (i = sender)) as [->|Hi].
      * rewrite (bool_decide_eq_false_2 (sender ≠ sender)) by naive_solver.
        rewrite bool_decide_eq_false_2; [done|].
        intros [[->|Hin]%elem_of_cons Hne]; naive_solver.
      * rewrite (bool_decide_eq_true_2 (i ≠ sender)) by done.
        destruct (decide (k = i)) as [->|Hki].
        -- rewrite lookup_insert_eq, bool_decide_eq_true_2; [done|].
           split; [by left|done].
        -- rewrite lookup_insert_ne by done.
           rewrite bool_decide_eq_false_2; [done|].
           intros [[->|Hin]%elem_of_cons Hne]; naive_solver.
Qed.

Lemma claim_master_lookup sender m k :
  claim_master sender m !! k
  = if bool_decide (k = sender) then Some true
    else if is_known k then Some false else m !! k.
Proof.
  unfold claim_master. rewrite foldl_reset_lookup. unfold is_known.
  repeat case_bool_decide; subst; try naive_solver.
  - by rewrite lookup_insert_eq.
  - by rewrite lookup_insert_ne.
Qed.

Lemma one_master_initial : one_master (node_is_master initial).
Proof.
  split.
  - intros k [v Hk]. apply elem_of_dom_2 in Hk.
    revert Hk. unfold initial, node_is_master, all_known.
    rewrite dom_list_to_map_L. rewrite <- list_fmap_compose.
    rewrite elem_of_list_to_set. by rewrite list_fmap_id.
  - intros i j Hi Hj. exfalso. revert Hi.
    unfold initial, node_is_master, all_known.
    intros Hi%elem_of_list_to_map_2.
    apply list_elem_of_fmap in Hi as (? & [=] & _).
Qed.

Lemma one_master_claim sender m :
  sender ∈ known_ips → one_master m → one_master (claim_master sender m).
Proof.
  intros Hs [Hdom Hone]. split.
  - intros k [v Hk]. rewrite claim_master_lookup in Hk.
    case_bool_decide; [by subst|].
    destruct (is_known k) eqn:E; [by apply is_known_true|]. apply Hdom. by eexists.
  - assert (∀ k, claim_master sender m !! k = Some true → k = sender) as Hk.
    { intros k. rewrite claim_master_lookup. case_bool_decide; [done|].
      destruct (is_known k) eqn:E; [done|]. intros Hmk.
      assert (k ∈ known_ips) as Hin by (apply Hdom; by eexists).
      apply is_known_true in Hin. congruence. }
    intros i j Hi%Hk Hj%Hk. congruence.
Qed.

Lemma one_master_release sender m :
  sender ∈ known_ips → one_master m → one_master (<[sender := false]> m).
Proof.
  intros Hs [Hdom Hone]. split.
  - intros k [v Hk]. destruct (decide (k = sender)) as [->|Hne]; [done|].
    rewrite lookup_insert_ne in Hk by done. apply Hdom. by eexists.
  - intros i j Hi Hj.
    destruct (decide (i = sender)) as [->|Hi'];
      [by rewrite lookup_insert_eq in Hi|].
    destruct (decide (j = sender)) as [->|Hj'];
      [by rewrite lookup_insert_eq in Hj|].
    rewrite lookup_insert_ne in Hi, Hj by done. by apply Hone.
Qed.

Lemma one_master_udp_receive s dg :
  one_master (node_is_master s) →
  one_master (node_is_master (udp_receive s dg)).
Proof.
  intros Hinv. rewrite udp_receive_node_is_master. cbn zeta.
  destruct (is_known (sender_ip dg)) eqn:Hk; [|done].
  apply is_known_true in Hk.
  repeat case_match; auto using one_master_claim, one_master_release.
Qed.

Lemma one_master_udp_listener dgs s :
  one_master (node_is_master s) →
  one_master (node_is_master (udp_listener s dgs)).
Proof.
  revert s. induction dgs as [|dg dgs IH]; intros s Hinv; [done|].
  apply IH. by apply one_master_udp_receive.
Qed.

Lemma sensor_not_master msg :
  Py.startswith msg "SENSOR:" || Py.startswith msg "LIGHT:" = true →
  Py.startswith msg "MASTER:" = false.
Proof.
  destruct msg as [|c msg]; [done|]. unfold Py.startswith. cbn.
  repeat (case_match; try done); by subst.
Qed.

End Ingest.

(** C10. From the initial state, in which no node is master, whatever
    datagrams [udp_listener] processes, at most one node has its master
    flag set. A well-formed MASTER message of a known node sets the flag of
    the sender and clears the flag of every other known node; a well-formed
    SENSOR or LIGHT message clears the flag of the sender. *)
Theorem at_most_one_master (dgs : list Device.Datagram) (s : Device.State)
    (dg : Device.Datagram) (value : Z) :
  (∀ i j,
     Device.node_is_master (Device.udp_listener Device.initial dgs) !! i
       = Some true →
     Device.node_is_master (Device.udp_listener Device.initial dgs) !! j
       = Some true →
     i = j)
  ∧ (Device.sender_ip dg ∈ Device.known_ips →
     Device.payload_value (Py.strip (Device.text dg)) = Some value →
     (Py.startswith (Py.strip (Device.text dg)) "MASTER:" = true →
      Device.node_is_master (Device.udp_receive s dg) !! Device.sender_ip dg
        = Some true
      ∧ ∀ k, k ∈ Device.known_ips → k ≠ Device.sender_ip dg →
             Device.node_is_master (Device.udp_receive s dg) !! k = Some false)
     ∧ (Py.startswith (Py.strip (Device.text dg)) "SENSOR:"
        || Py.startswith (Py.strip (Device.text dg)) "LIGHT:" = true →
        Device.node_is_master (Device.udp_receive s dg) !! Device.sender_ip dg
          = Some false)).
Proof.
  split.
  - apply one_master_udp_listener, one_master_initial.
  - intros Hknown Hvalue. rewrite udp_receive_node_is_master. cbn zeta.
    apply is_known_true in Hknown as Hk. rewrite Hk, Hvalue. split.
    + intros ->. split.
      * rewrite claim_master_lookup. by rewrite bool_decide_eq_true_2.
      * intros k Hin Hne. rewrite claim_master_lookup.
        rewrite bool_decide_eq_false_2 by done.
        by apply is_known_true in Hin as ->.
    + intros Hprefix. rewrite (sensor_not_master _ Hprefix), Hprefix.
      by rewrite lookup_insert_eq.
Qed.

(** C4. A message of a known node with a recognised prefix whose payload
    is not an integer literal leaves [node_values], [node_is_master],
    [last_update_time], the live buffer [graph_data_unified], the session
    buffer, the masters of the session, the durations and every log file
    as they were. *)
Theorem malformed_message_discarded (s : Device.State) (dg : Device.Datagram)
    (payload : string) :
  Device.sender_ip dg ∈ Device.known_ips →
  Py.startswith (Py.strip (Device.text dg)) "MASTER:" = true
  ∨ Py.startswith (Py.strip (Device.text dg)) "SENSOR:" = true
  ∨ Py.startswith (Py.strip (Device.text dg)) "LIGHT:" = true →
  Py.split ":" (Py.strip (Device.text dg)) !! 1%nat = Some payload →
  Py.int payload = None →
  Device.node_values (Device.udp_receive s dg) = Device.node_values s
  ∧ Device.node_is_master (Device.udp_receive s dg) = Device.node_is_master s
  ∧ Device.last_update_time (Device.udp_receive s dg)
    = Device.last_update_time s
  ∧ Device.graph_data_unified (Device.udp_receive s dg)
    = Device.graph_data_unified s
  ∧ Device.session_data (Device.udp_receive s dg) = Device.session_data s
  ∧ Device.all_masters_in_session (Device.udp_receive s dg)
    = Device.all_masters_in_session s
  ∧ Device.master_duration_data (Device.udp_receive s dg)
    = Device.master_duration_data s
  ∧ Device.disk (Device.udp_receive s dg) = Device.disk s.
Proof.
  intros Hknown Hprefix Hpayload Hint.
  assert (Device.payload_value (Py.strip (Device.text dg)) = None) as Hnone.
  { unfold Device.payload_value. by rewrite Hpayload. }
  unfold Device.udp_receive, Device.handle_reading. cbn zeta.
  rewrite Hnone. by repeat case_match.
Qed.


(** * Properties of the session recorder of the server *)

Section Recorder.
Import Server.






Lemma write_line_lookup name line d k :
  write_line name line d !! k
  = if bool_decide (k = name) then Some (default [] (d !! name) ++ [line])
    else d !! k.
Proof.
  unfold write_line. case_bool_decide; subst.
  - by rewrite lookup_insert_eq.
  - by rewrite lookup_insert_ne.
Qed.

Lemma write_lines_lookup name line lines d k :
  write_lines name (line :: lines) d !! k
  = if bool_decide (k = name)
    then Some (default [] (d !! name) ++ line :: lines)
    else d !! k.
Proof.
  unfold write_lines. revert line d.
  induction lines as [|l lines IH]; intros line d.
  - cbn. apply write_line_lookup.
  - cbn [foldl] in *. rewrite IH, !write_line_lookup.
    case_bool_decide; subst; [|done].
    rewrite bool_decide_eq_true_2 by done. cbn.
    by rewrite <- app_assoc.
Qed.

Lemma footer_cons s now iso :
  ∃ line lines, footer s now iso = line :: lines.
Proof. unfold footer. cbn. eauto. Qed.









End Recorder.




(** * Properties of the log analyzer *)

(** ** How a line is seen through its comma-separated fields *)

Section Fields.

Lemma split_nonempty sep s : Py.split sep s ≠ [].
Proof.
  destruct s as [|c s]; cbn; [done|].
  destruct (Ascii.eqb c sep); [done|]. by destruct (Py.split sep s).
Qed.

Lemma split_cons sep c s :
  Py.split sep (String c s)
  = if Ascii.eqb c sep then EmptyString :: Py.split sep s
    else String c (hd EmptyString (Py.split sep s)) :: tl (Py.split sep s).
Proof.
  cbn. destruct (Ascii.eqb c sep); [done|].
  pose proof (split_nonempty sep s). by destruct (Py.split sep s).
Qed.

Lemma split_length_pos sep s : (1 ≤ length (Py.split sep s))%nat.
Proof.
  pose proof (split_nonempty sep s). destruct (Py.split sep s); cbn; [done|lia].
Qed.

Lemma tl_length {A} (l : list A) : length (tl l) = (length l - 1)%nat.
Proof. destruct l; cbn; lia. Qed.

Lemma startswith_cons c s a p :
  Py.startswith (String c s) (String a p)
  = bool_decide (a = c) && Py.startswith s p.
Proof.
  unfold Py.startswith. cbn [String.prefix].
  destruct (ascii_dec a c).
  - by rewrite bool_decide_eq_true_2.
  - by rewrite bool_decide_eq_false_2.
Qed.

Lemma startswith_nil_l a p : Py.startswith EmptyString (String a p) = false.
Proof. done. Qed.

Lemma startswith_nil_r s : Py.startswith s EmptyString = true.
Proof. by destruct s. Qed.

(** [line.startswith('#')] looks at the first field only. *)
Lemma startswith_hash s :
  Py.startswith s "#" = Py.startswith (hd EmptyString (Py.split "," s)) "#".
Proof.
  destruct s as [|c s]; [done|]. rewrite split_cons.
  destruct (Ascii.eqb_spec c ","%char) as [->|Hne]; [done|].
  cbn [hd]. by rewrite !startswith_cons, !startswith_nil_r.
Qed.

(** [not line] *)
Lemma empty_iff_split s : s = EmptyString ↔ Py.split "," s = [EmptyString].
Proof.
  split; [by intros ->|]. destruct s as [|c s]; [done|].
  rewrite split_cons. destruct (Ascii.eqb c ","); [|done].
  intros [= H]. by apply split_nonempty in H.
Qed.

(** [',' in line] *)
Lemma contains_comma s :
  Py.contains "," s = bool_decide (2 ≤ length (Py.split "," s))%nat.
Proof.
  induction s as [|c s IH]; [done|]. rewrite split_cons. cbn [Py.contains].
  pose proof (split_length_pos "," s).
  destruct (Ascii.eqb c ","); cbn [orb length].
  - by rewrite bool_decide_eq_true_2 by lia.
  - rewrite IH, tl_length. apply bool_decide_ext. lia.
Qed.

(** [line.startswith(p + ',')] for a [p] without a comma. *)
Lemma startswith_field p s :
  Py.contains "," p = false →
  Py.startswith s (p +:+ ",")
  = bool_decide (hd EmptyString (Py.split "," s) = p)
    && bool_decide (2 ≤ length (Py.split "," s))%nat.
Proof.
  revert s. induction p as [|a p IH]; intros s Hp.
  - change (EmptyString +:+ ",") with (String "," EmptyString).
    destruct s as [|c s]; [done|].
    rewrite split_cons, startswith_cons, startswith_nil_r.
    pose proof (split_length_pos "," s).
    destruct (Ascii.eqb_spec c ","%char) as [->|Hne]; cbn [hd length].
    + by rewrite !bool_decide_eq_true_2 by (done || lia).
    + rewrite !(bool_decide_eq_false_2 (_ = _)) by congruence. done.
  - cbn [Py.contains] in Hp. apply orb_false_iff in Hp as [Ha Hp].
    apply Ascii.eqb_neq in Ha.
    change (String a p +:+ ",") with (String a (p +:+ ",")).
    destruct s as [|c s]; [done|].
    rewrite split_cons, startswith_cons.
    pose proof (split_length_pos "," s).
    destruct (Ascii.eqb_spec c ","%char) as [->|Hne]; cbn [hd length].
    + rewrite (bool_decide_eq_false_2 (a = _)) by done.
      by rewrite (bool_decide_eq_false_2 (EmptyString = _)) by done.
    + rewrite IH by done. rewrite tl_length.
      destruct (decide (a = c)) as [->|Hac].
      * rewrite (bool_decide_eq_true_2 (c = c)) by done.
        destruct (decide (hd EmptyString (Py.split "," s) = p)) as [Heq|Hneq].
        -- rewrite !(bool_decide_eq_true_2 (_ = _)) by congruence.
           cbn [andb]. apply bool_decide_ext. lia.
        -- rewrite (bool_decide_eq_false_2 (hd _ _ = _)) by done.
           by rewrite (bool_decide_eq_false_2 (String _ _ = _)) by congruence.
      * rewrite (bool_decide_eq_false_2 (a = c)) by done.
        by rewrite (bool_decide_eq_false_2 (String _ _ = _)) by congruence.
Qed.

End Fields.

Section AnalyzerFields.
Import Server.
Variable iso : string → option Z.
Local Abbreviation parse_fields := (parse_fields iso).

Lemma parse_line_fields st raw :
  parse_line iso st raw = parse_fields st (Py.split "," (Py.strip raw)).
Proof.
  unfold parse_line, parse_fields. cbn zeta.
  change "timestamp," with ("timestamp" +:+ ",").
  rewrite (startswith_field "timestamp") by done.
  rewrite (startswith_hash (Py.strip raw)), contains_comma.
  by rewrite (bool_decide_ext _ _ (empty_iff_split (Py.strip raw))).
Qed.

Lemma hd_lookup (parts : list string) :
  hd EmptyString parts = default EmptyString (parts !! 0%nat).
Proof. by destruct parts. Qed.

Lemma parse_fields_ext st (parts1 parts2 : list string) :
  length parts1 = length parts2 →
  (∀ i, i ≠ 5%nat → parts1 !! i = parts2 !! i) →
  parse_fields st parts1 = parse_fields st parts2.
Proof.
  intros Hlen Hparts. unfold parse_fields, parse_row.
  rewrite !hd_lookup, Hlen.
  rewrite !(Hparts 0%nat), !(Hparts 1%nat), !(Hparts 2%nat),
          !(Hparts 3%nat), !(Hparts 4%nat) by done.
  assert (bool_decide (parts1 = [EmptyString])
          = bool_decide (parts2 = [EmptyString])) as ->; [|done].
  apply bool_decide_ext.
  destruct parts1 as [|p1 [|]], parts2 as [|p2 [|]]; try done.
  specialize (Hparts 0%nat). cbn in Hparts. naive_solver.
Qed.

Lemma parse_lines_ext lines1 lines2 :
  Forall2 same_but_duration_column lines1 lines2 →
  parse_lines iso lines1 = parse_lines iso lines2.
Proof.
  unfold parse_lines. generalize (mkParse false [] []).
  intros st H. revert st.
  induction H as [|raw1 raw2 lines1 lines2 [Hlen Hparts] _ IH]; intros st;
    [done|].
  cbn [foldl]. rewrite !parse_line_fields.
  by rewrite (parse_fields_ext st _ _ Hlen Hparts).
Qed.

Lemma parse_lines_header_only lines :
  header_only lines → parsed_points (parse_lines iso lines) = [].
Proof.
  unfold parse_lines.
  assert (∀ st, parsed_points st = [] → header_only lines →
                parsed_points (foldl (parse_line iso) st lines) = []) as H;
    [|by apply H].
  induction lines as [|raw lines IH]; intros st Hst Hall; [done|].
  apply Forall_cons in Hall as [Hraw Hall]. cbn [foldl].
  apply IH; [|done]. unfold parse_line. cbn zeta.
  destruct Hraw as [-> | [-> | Hhead]]; [done|..].
  - by rewrite bool_decide_eq_true_2, orb_true_r.
  - rewrite Hhead. by destruct (_ || _).
Qed.

Lemma insert_by_length {A} (le : A → A → bool) x l :
  length (Py.insert_by le x l) = S (length l).
Proof.
  induction l as [|y l IH]; [done|]. cbn. destruct (le x y); cbn; by f_equal.
Qed.

Lemma sort_by_length {A} (le : A → A → bool) l :
  length (Py.sort_by le l) = length l.
Proof.
  induction l as [|x l IH]; [done|]. cbn. by rewrite insert_by_length, IH.
Qed.

Lemma analyze_points_total_points points nodes a :
  analyze_points points nodes = Some a →
  total_points a = length points ∧ (1 ≤ total_points a)%nat.
Proof.
  unfold analyze_points. destruct points as [|p points]; [done|].
  cbn zeta. destruct (info_scan _ _) as [acc|]; [|done].
  cbn [mbind option_bind]. intros [= <-]. cbn [total_points].
  unfold sort_points. rewrite sort_by_length. cbn [length]. split; lia.
Qed.

End AnalyzerFields.

(** C7. Two log files whose lines agree field by field everywhere but in
    the sixth column, [master_duration_seconds], get the same analysis, and
    in particular the same per-node master durations. *)
Theorem duration_column_ignored (iso : string → option Z)
    (fs1 fs2 : gmap string Server.FileContent) (path1 path2 : string)
    (lines1 lines2 : list string) :
  fs1 !! path1 = Some (Server.Lines lines1) →
  fs2 !! path2 = Some (Server.Lines lines2) →
  Forall2 same_but_duration_column lines1 lines2 →
  Server.analyze_log_file iso fs1 path1 = Server.analyze_log_file iso fs2 path2
  ∧ Server.master_durations <$> Server.analyze_log_file iso fs1 path1
    = Server.master_durations <$> Server.analyze_log_file iso fs2 path2.
Proof.
  intros H1 H2 Hlines.
  assert (Server.analyze_log_file iso fs1 path1
          = Server.analyze_log_file iso fs2 path2) as ->; [|done].
  unfold Server.analyze_log_file. rewrite H1, H2.
  by rewrite (parse_lines_ext iso lines1 lines2 Hlines).
Qed.


(** C6, as amended. [analyze_log_file] returns no analysis for a file that
    is missing, that cannot be read, or that holds no parseable data row,
    a log of header and comment lines included; an analysis it does return
    reports at least one point. The route answers 404, file not found, for
    a missing file, and one and the same 500 response for every file that
    exists and gets no analysis. *)
Theorem analysis_failure_cases (iso : string → option Z) (s : Server.State)
    (fs : gmap string Server.FileContent) (filename : string)
    (a : Server.Analysis) :
  let filepath := Server.path_join Server.local_log_directory filename in
  (fs !! filepath = None ∨ fs !! filepath = Some Server.Unreadable
   ∨ (∃ lines, fs !! filepath = Some (Server.Lines lines)
               ∧ (header_only lines
                  ∨ Server.parsed_points (Server.parse_lines iso lines) = []))
   → Server.analyze_log_file iso fs filepath = None)
  ∧ (Server.analyze_log_file iso fs filepath = Some a →
     (1 ≤ Server.total_points a)%nat)
  ∧ (Py.startswith filename "swarm_log_" = true →
     Server.endswith filename ".csv" = true →
     (fs !! filepath = None →
      Server.analyze_log_endpoint iso s fs "local" filename
      = Server.Error "File not found" 404)
     ∧ (is_Some (fs !! filepath) →
        Server.analyze_log_file iso fs filepath = None →
        Server.analyze_log_endpoint iso s fs "local" filename
        = Server.Error "Could not analyze log file" 500)).
Proof.
  intros filepath.
  assert (∀ lines, header_only lines
                   ∨ Server.parsed_points (Server.parse_lines iso lines) = [] →
                   Server.parsed_points (Server.parse_lines iso lines) = [])
    as Hempty.
  { intros lines [H|H]; [by apply parse_lines_header_only|done]. }
  split; [|split].
  - unfold Server.analyze_log_file.
    intros [-> | [-> | (lines & -> & Hlines)]]; [done..|].
    by rewrite (Hempty lines Hlines).
  - unfold Server.analyze_log_file.
    destruct (fs !! filepath) as [[|lines]|]; [done| |done].
    intros H. by apply analyze_points_total_points in H as [_ H].
  - intros Hprefix Hsuffix. unfold Server.analyze_log_endpoint.
    rewrite Hprefix, Hsuffix. cbn [negb orb].
    rewrite bool_decide_eq_true_2 by done. fold filepath. split.
    + by intros ->.
    + intros [c Hc] Hnone. by rewrite Hc, Hnone.
Qed.


(** * The analyzer against the live accumulator *)

Section Replay.
Import Server.


Lemma master_samples_cons p points :
  master_samples (p :: points)
  = if is_master p then (ip p, timestamp p) :: master_samples points
    else master_samples points.
Proof.
  unfold master_samples. rewrite filter_cons.
  destruct (is_master p); by case_decide.
Qed.















(** [all_nodes] is determined by the points the loop kept. *)
Lemma all_nodes_parse_lines iso lines :
  all_nodes (parse_lines iso lines)
  = nodes_of (parsed_points (parse_lines iso lines)).
Proof.
  unfold parse_lines.
  assert (∀ st, all_nodes st = nodes_of (parsed_points st) →
                all_nodes (foldl (parse_line iso) st lines)
                = nodes_of (parsed_points (foldl (parse_line iso) st lines)))
    as H; [|by apply H].
  induction lines as [|raw lines IH]; intros st Hst; [done|].
  cbn [foldl]. apply IH. unfold parse_line. cbn zeta.
  repeat case_match; try done.
  cbn [all_nodes parsed_points]. unfold nodes_of.
  rewrite foldl_app. cbn [foldl]. by rewrite Hst.
Qed.


End Replay.


(** * Examples: the theorems at sample sessions and logs *)

Ltac by_evaluation := compute_done.





(** C3 at the session with one master event of RED. *)
Lemma single_master_event_witness :
  ∃ s',
    Device.update_master_duration Sample.single_master_session
      (Sample.t0 + 12) = Some s'
    ∧ Device.master_duration_data s' !! Sample.red = Some 7
    ∧ Device.master_duration_data s' !! Sample.blue = Some 0.
Proof.
  destruct (single_master_event Sample.single_master_session Sample.t0
              (Sample.t0 + 12)) as [Hone _].
  - vm_compute; reflexivity.
  - vm_compute; reflexivity.
  - destruct (Hone (Device.mkPoint (Sample.t0 + 5) Sample.red 100 true))
      as (sc & s' & _ & _ & _ & _ & Hs' & Hred & Hothers).
    + vm_compute; reflexivity.
    + by_evaluation.
    + cbn [Device.timestamp]. lia.
    + cbn [Device.ip Device.timestamp] in Hred, Hothers.
      exists s'. split; [exact Hs'|]. split.
      * rewrite Hred. f_equal; lia.
      * apply Hothers; [by_evaluation|discriminate].
Defined.

(** C4 at the message [MASTER:abc] of RED. *)
Lemma malformed_message_discarded_witness :
  Device.node_values
    (Device.udp_receive Device.initial
       (Sample.datagram 5 Sample.red "MASTER:abc"))
  = Device.node_values Device.initial
  ∧ Device.node_is_master
      (Device.udp_receive Device.initial
         (Sample.datagram 5 Sample.red "MASTER:abc"))
    = Device.node_is_master Device.initial
  ∧ Device.graph_data_unified
      (Device.udp_receive Device.initial
         (Sample.datagram 5 Sample.red "MASTER:abc"))
    = [].
Proof.
  destruct (malformed_message_discarded Device.initial
              (Sample.datagram 5 Sample.red "MASTER:abc") "abc")
    as (Hvalues & Hmaster & _ & Hgraph & _).
  - by_evaluation.
  - left. vm_compute; reflexivity.
  - vm_compute; reflexivity.
  - vm_compute; reflexivity.
  - split; [exact Hvalues|]. split; [exact Hmaster|exact Hgraph].
Defined.



(** C6 at the sample files: a log without data rows gets no analysis, and
    the route answers 404 for a file that is missing. *)
Lemma analysis_failure_cases_witness :
  Server.analyze_log_file Host.fromisoformat_timestamp Sample.files
    (Server.path_join Server.local_log_directory "swarm_log_empty.csv")
  = None
  ∧ Server.analyze_log_endpoint Host.fromisoformat_timestamp Server.initial
      Sample.files "local" "swarm_log_missing.csv"
    = Server.Error "File not found" 404.
Proof.
  pose proof (analysis_failure_cases Host.fromisoformat_timestamp
                Server.initial Sample.files "swarm_log_empty.csv"
                (Server.mkAnalysis [] ∅ 0 0 0 0 0)) as Hempty.
  pose proof (analysis_failure_cases Host.fromisoformat_timestamp
                Server.initial Sample.files "swarm_log_missing.csv"
                (Server.mkAnalysis [] ∅ 0 0 0 0 0)) as Hmissing.
  cbn zeta in Hempty, Hmissing.
  destruct Hempty as (Hnone & _ & _). destruct Hmissing as (_ & _ & Hroute).
  split.
  - apply Hnone. right. right. exists Sample.empty_session_log. split.
    + vm_compute; reflexivity.
    + left. unfold header_only, Sample.empty_session_log.
      repeat (apply Forall_cons; split;
              [first [ left; vm_compute; reflexivity
                     | right; left; vm_compute; reflexivity
                     | right; right; vm_compute; reflexivity ]|]).
      apply Forall_nil_2.
  - destruct Hroute as [Hnotfound _].
    + vm_compute; reflexivity.
    + vm_compute; reflexivity.
    + apply Hnotfound. vm_compute; reflexivity.
Defined.

(** C6, counterexample: the log of a session without data gets no analysis,
    not one with zero points, and the route answers it as it answers a
    file that cannot be read. *)
Lemma header_only_log_gets_no_analysis :
  Server.analyze_log_file Host.fromisoformat_timestamp Sample.files
    "webserver_logs/swarm_log_empty.csv" = None
  ∧ Server.analyze_log_endpoint Host.fromisoformat_timestamp Server.initial
      Sample.files "local" "swarm_log_empty.csv"
    = Server.Error "Could not analyze log file" 500
  ∧ Server.analyze_log_endpoint Host.fromisoformat_timestamp Server.initial
      Sample.files "local" "swarm_log_unreadable.csv"
    = Server.Error "Could not analyze log file" 500.
Proof. repeat split; vm_compute; reflexivity. Qed.

Ltac fields_of raw :=
  let l := eval vm_compute in (Py.split "," (Py.strip raw)) in
  change (Py.split "," (Py.strip raw)) with l.

(** C7 at two logs of the chained session that differ in the sixth column
    of both rows. *)
Lemma duration_column_ignored_witness :
  Server.analyze_log_file Host.fromisoformat_timestamp Sample.files
    "webserver_logs/swarm_log_chained.csv"
  = Server.analyze_log_file Host.fromisoformat_timestamp Sample.files
      "webserver_logs/swarm_log_edited.csv"
  ∧ Server.master_durations
      <$> Server.analyze_log_file Host.fromisoformat_timestamp Sample.files
            "webserver_logs/swarm_log_chained.csv"
    = Server.master_durations
        <$> Server.analyze_log_file Host.fromisoformat_timestamp Sample.files
              "webserver_logs/swarm_log_edited.csv".
Proof.
  apply (duration_column_ignored Host.fromisoformat_timestamp
           Sample.files Sample.files _ _
           (Sample.chained_log "0.00" "3.00")
           (Sample.chained_log "999.99" "-1")).
  - vm_compute; reflexivity.
  - vm_compute; reflexivity.
  - unfold Sample.chained_log.
    repeat (apply Forall2_cons; split;
            [unfold same_but_duration_column;
             repeat match goal with
                    | |- context [Py.split "," (Py.strip ?a)] => fields_of a
                    end;
             split; [reflexivity|];
             intros i Hi; do 8 (destruct i as [|i]; [done|]); done|]).
    apply Forall2_nil_2.
Defined.



(** C10 at a master message of RED. *)
Lemma at_most_one_master_witness :
  Device.node_is_master
    (Device.udp_receive Device.initial
       (Sample.datagram 5 Sample.red "MASTER:100")) !! Sample.red
  = Some true
  ∧ Device.node_is_master
      (Device.udp_receive Device.initial
         (Sample.datagram 5 Sample.red "MASTER:100")) !! Sample.blue
    = Some false.
Proof.
  destruct (at_most_one_master [] Device.initial
              (Sample.datagram 5 Sample.red "MASTER:100") 100)
    as (_ & Hmessage).
  destruct Hmessage as [Hmaster _].
  - by_evaluation.
  - vm_compute; reflexivity.
  - destruct Hmaster as [Hsender Hothers].
    + vm_compute; reflexivity.
    + split; [exact Hsender|].
      apply Hothers; [by_evaluation|discriminate].
Defined.

(** * Further properties: the runs of the device *)

(** ** Sorting and the bounded buffers *)

Section Sorting.
Context {A : Type} (le : A → A → bool).

Lemma insert_by_Permutation x l : Py.insert_by le x l ≡ₚ x :: l.
Proof.
  induction l as [|y l IH]; [done|]. cbn [Py.insert_by].
  destruct (le x y); [done|]. rewrite IH. apply Permutation_swap.
Qed.

Lemma sort_by_Permutation l : Py.sort_by le l ≡ₚ l.
Proof.
  induction l as [|x l IH]; [done|]. cbn [Py.sort_by].
  rewrite insert_by_Permutation. by f_equiv.
Qed.

Lemma insert_by_Sorted x l :
  (∀ a b, le a b = true ∨ le b a = true) →
  Sorted (λ a b, le a b = true) l →
  Sorted (λ a b, le a b = true) (Py.insert_by le x l).
Proof.
  intros Htotal. induction 1 as [|y l Hs IH Hhd]; cbn [Py.insert_by].
  - by repeat constructor.
  - destruct (le x y) eqn:Hxy.
    + constructor; [by constructor|]. by constructor.
    + constructor; [done|].
      destruct Hhd as [|z l Hyz]; cbn [Py.insert_by].
      * constructor. by destruct (Htotal x y) as [Hle|Hle]; [congruence|].
      * destruct (le x z); constructor; [|done].
        by destruct (Htotal x y) as [Hle|Hle]; [congruence|].
Qed.

Lemma sort_by_Sorted l :
  (∀ a b, le a b = true ∨ le b a = true) →
  Sorted (λ a b, le a b = true) (Py.sort_by le l).
Proof.
  intros Htotal. induction l as [|x l IH]; [constructor|].
  cbn [Py.sort_by]. by apply insert_by_Sorted.
Qed.

End Sorting.

Lemma deque_append_sublist {A} (maxlen : nat) (d : list A) (x : A) :
  ∃ old, d ++ [x] = old ++ Py.deque_append maxlen d x ∧ (length old ≤ 1)%nat.
Proof.
  unfold Py.deque_append. destruct (length d <? maxlen)%nat.
  - exists []. split; [done|cbn [length]; lia].
  - exists (take 1 (d ++ [x])). rewrite take_drop. split; [done|].
    rewrite length_take. lia.
Qed.

Lemma deque_append_length {A} (maxlen : nat) (d : list A) (x : A) :
  (0 < maxlen)%nat → (length d ≤ maxlen)%nat →
  (length (Py.deque_append maxlen d x) ≤ maxlen)%nat.
Proof.
  intros Hpos Hlen. unfold Py.deque_append.
  destruct (Nat.ltb_spec (length d) maxlen).
  - rewrite length_app. cbn [length]. lia.
  - rewrite length_drop, length_app. cbn [length]. lia.
Qed.

Lemma deque_append_Forall {A} (P : A → Prop) (maxlen : nat) (d : list A) x :
  Forall P d → P x → Forall P (Py.deque_append maxlen d x).
Proof.
  intros Hd Hx. unfold Py.deque_append.
  assert (Forall P (d ++ [x])) as Hall by (apply Forall_app; auto).
  destruct (length d <? maxlen)%nat; [done|]. by apply Forall_drop.
Qed.

Lemma max_data_points_pos : (0 < Device.MAX_DATA_POINTS)%nat.
Proof. unfold Device.MAX_DATA_POINTS. lia. Qed.

(** ** The logs of the device *)

Lemma device_footers_app l1 l2 :
  device_footers (l1 ++ l2) = (device_footers l1 + device_footers l2)%nat.
Proof. unfold device_footers. by rewrite filter_app, length_app. Qed.

Lemma device_footers_fmap {A} (g : A → Device.LogLine) (l : list A) :
  (∀ x, is_device_summary_title (g x) = false) →
  device_footers (g <$> l) = 0%nat.
Proof.
  intros Hg. unfold device_footers. induction l as [|x l IH]; [done|].
  rewrite fmap_cons, filter_cons, Hg. by rewrite decide_False.
Qed.

Lemma device_footers_footer s iso duration :
  device_footers (Device.footer s iso duration) = 1%nat.
Proof.
  unfold Device.footer. rewrite device_footers_app, device_footers_fmap by done.
  done.
Qed.

Lemma device_write_line_lookup name line d k :
  Device.write_line name line d !! k
  = if bool_decide (k = name) then Some (default [] (d !! name) ++ [line])
    else d !! k.
Proof.
  unfold Device.write_line. case_bool_decide; subst.
  - by rewrite lookup_insert_eq.
  - by rewrite lookup_insert_ne.
Qed.

Lemma device_write_lines_lookup name line lines d k :
  Device.write_lines name (line :: lines) d !! k
  = if bool_decide (k = name)
    then Some (default [] (d !! name) ++ line :: lines)
    else d !! k.
Proof.
  unfold Device.write_lines. revert line d.
  induction lines as [|l lines IH]; intros line d.
  - cbn [foldl]. apply device_write_line_lookup.
  - cbn [foldl] in *. rewrite IH, !device_write_line_lookup.
    case_bool_decide; subst; [|done].
    rewrite bool_decide_eq_true_2 by done. cbn [from_option id].
    by rewrite <- app_assoc.
Qed.

Lemma device_footer_cons s iso duration :
  ∃ line lines, Device.footer s iso duration = line :: lines.
Proof. unfold Device.footer. cbn [app]. eauto. Qed.

(** ** What every step of the device keeps true *)

Ltac dev_simpl :=
  cbn [Device.node_values Device.node_is_master Device.last_update_time
       Device.graph_data_unified Device.master_duration_data
       Device.graph_start_time Device.logging_active
       Device.session_start_time Device.session_data
       Device.all_masters_in_session Device.log_file Device.log_filename
       Device.disk] in *.

Lemma all_known_lookup {V} (v : V) k :
  k ∈ Device.known_ips → Device.all_known v !! k = Some v.
Proof.
  intros Hk. rewrite known_ips_eq in Hk.
  repeat (apply elem_of_cons in Hk as [->|Hk]; [by vm_compute|]).
  by apply elem_of_nil in Hk.
Qed.

Lemma device_inv_initial : device_inv Device.initial.
Proof.
  split; unfold Device.initial; dev_simpl.
  - intros k Hk. by rewrite all_known_lookup.
  - intros k Hk. by rewrite all_known_lookup.
  - apply one_master_initial.
  - intros k Hk. by rewrite all_known_lookup.
  - intros k Hk. by rewrite all_known_lookup.
  - constructor.
  - cbn [length]. lia.
  - constructor.
  - cbn [length]. lia.
  - intros k Hk. by apply elem_of_empty in Hk.
  - done.
  - done.
  - intros path log. by rewrite lookup_empty.
  - done.
Qed.

Lemma device_inv_mark_graph_start s now :
  device_inv s → device_inv (Device.mark_graph_start s now).
Proof. intros []. by split. Qed.

Lemma device_inv_set_graph s d :
  Forall (λ p, Device.ip p ∈ Device.known_ips) d →
  (length d ≤ Device.MAX_DATA_POINTS)%nat →
  device_inv s → device_inv (Device.set_graph_data_unified s d).
Proof. intros Hd Hlen []. by split. Qed.

Lemma device_inv_set_durations s d :
  (∀ k, k ∈ Device.known_ips → is_Some (d !! k)) →
  device_inv s → device_inv (Device.set_master_duration_data s d).
Proof. intros Hd []. by split. Qed.

Lemma popleft_older_suffix cutoff d :
  ∃ old, d = old ++ Device.popleft_older cutoff d
         ∧ Forall (λ p, Device.timestamp p < cutoff) old.
Proof.
  induction d as [|p d (old & Hd & Hold)]; [by exists []|].
  cbn [Device.popleft_older]. case_bool_decide.
  - exists (p :: old). split; [by rewrite Hd at 1|by constructor].
  - by exists [].
Qed.

Lemma device_inv_cleanup s now :
  device_inv s → device_inv (Device.cleanup_old_data s now).
Proof.
  intros Hinv. unfold Device.cleanup_old_data.
  destruct (Device.graph_start_time s); [|done].
  destruct (popleft_older_suffix (now - Device.TIME_WINDOW)
              (Device.graph_data_unified s)) as (old & Hd & _).
  apply device_inv_set_graph; [..|done].
  - destruct Hinv as [_ _ _ _ _ Hg _ _ _ _ _ _ _ _].
    rewrite Hd in Hg. by apply Forall_app in Hg as [_ ?].
  - destruct Hinv as [_ _ _ _ _ _ Hl _ _ _ _ _ _ _].
    rewrite Hd, length_app in Hl. lia.
Qed.

Lemma device_inv_update s now :
  device_inv s →
  ∃ s', Device.update_master_duration s now = Some s' ∧ device_inv s'.
Proof.
  intros Hinv. unfold Device.update_master_duration.
  destruct (Device.logging_active s); [|by eexists].
  destruct (Device.session_start_time s) as [cutoff|]; [|by eexists].
  destruct (compute_durations_credit (Device.master_duration_data s)
              (Device.session_data s) cutoff now) as (live & -> & Hlive).
  { intros p Hp _ _. destruct Hinv as [_ _ _ _ _ _ _ Hs _ _ _ _ _ _].
    by apply (proj1 (Forall_forall _ _) Hs). }
  eexists. split; [done|]. apply device_inv_set_durations; [|done].
  intros k Hk. rewrite (Hlive k Hk). by eexists.
Qed.

Lemma device_inv_record_reading s sender value master now :
  sender ∈ Device.known_ips →
  device_inv s → device_inv (Device.record_reading s sender value master now).
Proof.
  intros Hs [Hv Hf Hone Hseen Hd Hg Hgl Hsd Hsl Hm Ho Ha Hdisk Hol].
  split; unfold Device.record_reading; dev_simpl; try done.
  - intros k Hk. apply lookup_insert_is_Some'. auto.
  - intros k Hk. destruct master.
    + fold (claim_master sender (Device.node_is_master s)).
      rewrite claim_master_lookup. case_bool_decide; [by eexists|].
      apply is_known_true in Hk as ->. by eexists.
    + apply lookup_insert_is_Some'. auto.
  - destruct master.
    + by apply one_master_claim.
    + by apply one_master_release.
  - intros k Hk. apply lookup_insert_is_Some'. auto.
  - by apply deque_append_Forall.
  - apply deque_append_length; [apply max_data_points_pos|done].
  - destruct (Device.logging_active s); [|done]. by apply deque_append_Forall.
  - destruct (Device.logging_active s); [|done].
    apply deque_append_length; [apply max_data_points_pos|done].
Qed.

Lemma device_inv_log_data_point s ip value master iso now :
  ip ∈ Device.known_ips →
  device_inv s → device_inv (Device.log_data_point s ip value master iso now).
Proof.
  intros Hip Hinv. unfold Device.log_data_point.
  destruct (Device.logging_active s) eqn:Hact; [|done].
  destruct (Device.file_open (Device.log_file s)) as [name|] eqn:Hopen;
    [|done].
  destruct Hinv as [Hv Hf Hone Hseen Hd Hg Hgl Hsd Hsl Hm Ho Ha Hdisk Hol].
  split; dev_simpl; try done.
  - intros k Hk. destruct master; [|by apply Hm].
    apply elem_of_union in Hk as [->%elem_of_singleton|Hk]; [done|by apply Hm].
  - by rewrite Ho, Hact.
  - intros _. by apply Ha.
  - intros path log. rewrite device_write_line_lookup, Hopen.
    destruct (decide (path = name)) as [->|Hne].
    + rewrite !bool_decide_eq_true_2 by done. intros [= <-].
      rewrite device_footers_app.
      destruct (Device.disk s !! name) as [old|] eqn:Hold;
        cbn [from_option id]; [|done].
      rewrite (Hdisk name old Hold), Hopen.
      by rewrite bool_decide_eq_true_2.
    + rewrite !bool_decide_eq_false_2 by congruence. intros Hlog.
      rewrite (Hdisk path log Hlog), Hopen.
      by rewrite bool_decide_eq_false_2 by congruence.
  - intros path Hpath. rewrite device_write_line_lookup.
    rewrite Hopen in Hpath. injection Hpath as <-.
    rewrite bool_decide_eq_true_2 by done. by eexists.
Qed.

Lemma device_inv_handle_reading s msg master dg :
  Device.sender_ip dg ∈ Device.known_ips →
  device_inv s → device_inv (Device.handle_reading s msg master dg).
Proof.
  intros Hs Hinv. unfold Device.handle_reading.
  destruct (Device.payload_value msg) as [value|]; [|done]. cbn zeta.
  destruct (Device.logging_active s).
  - by apply device_inv_log_data_point, device_inv_record_reading.
  - by apply device_inv_record_reading.
Qed.

Lemma device_inv_udp_receive s dg :
  device_inv s → device_inv (Device.udp_receive s dg).
Proof.
  intros Hinv. unfold Device.udp_receive. cbn zeta.
  destruct (Device.is_known (Device.sender_ip dg)) eqn:Hk; [|done].
  apply is_known_true in Hk.
  repeat case_match;
    auto using device_inv_handle_reading, device_inv_mark_graph_start.
Qed.

Lemma device_inv_start s filename iso start :
  Device.logging_active s = false →
  device_inv s → device_inv (Device.start_logging_session s filename iso start).
Proof.
  intros Hidle [Hv Hf Hone Hseen Hd Hg Hgl Hsd Hsl Hm Ho Ha Hdisk Hol].
  rewrite Hidle in Ho.
  split; unfold Device.start_logging_session; dev_simpl; try done.
  - intros k Hk. rewrite set_all_lookup.
    apply is_known_true in Hk as ->. by eexists.
  - cbn [length]. lia.
  - cbn [length]. lia.
  - intros path log. cbn [Device.file_open].
    destruct (decide (path = filename)) as [->|Hne].
    + rewrite lookup_insert_eq, bool_decide_eq_true_2 by done.
      by intros [= <-].
    + rewrite lookup_insert_ne, bool_decide_eq_false_2 by congruence.
      intros Hlog. rewrite (Hdisk path log Hlog), Ho.
      by rewrite bool_decide_eq_false_2.
  - intros path. cbn [Device.file_open]. intros [= <-].
    rewrite lookup_insert_eq. by eexists.
Qed.

Lemma sorted_masters_known (masters : gset string) :
  (∀ k, k ∈ masters → k ∈ Device.known_ips) →
  forallb Device.is_known (Device.sorted_masters masters) = true.
Proof.
  intros Hknown. apply forallb_forall. intros k Hk%list_elem_of_In.
  apply is_known_true, Hknown. unfold Device.sorted_masters in Hk.
  rewrite sort_by_Permutation in Hk. by apply elem_of_elements in Hk.
Qed.

Lemma file_open_close_file f : Device.file_open (Device.close_file f) = None.
Proof. by destruct f as [[]|]. Qed.

Lemma device_inv_stop s now iso :
  device_inv s → device_inv (Device.stop_logging_session s now iso).
Proof.
  intros Hinv. unfold Device.stop_logging_session.
  destruct (Device.logging_active s) eqn:Hact; [|done]. cbn zeta.
  destruct Hinv as [Hv Hf Hone Hseen Hd Hg Hgl Hsd Hsl Hm Ho Ha Hdisk Hol].
  rewrite Hact in Ho. destruct (Ha Hact) as [[name Hname] _].
  rewrite Hname in Ho. rewrite Ho.
  split; dev_simpl; try done.
  - by rewrite file_open_close_file, sorted_masters_known.
  - by rewrite sorted_masters_known.
  - intros path log. rewrite file_open_close_file.
    rewrite bool_decide_eq_false_2 by done.
    destruct (device_footer_cons s iso
                (Device.elapsed_since (Device.session_start_time s) now))
      as (l & ls & Hfooter).
    rewrite Hfooter, device_write_lines_lookup, <- Hfooter.
    case_bool_decide as Hpath.
    + subst path. intros [= <-].
      rewrite device_footers_app, device_footers_footer.
      destruct (Device.disk s !! name) as [old|] eqn:Hold;
        cbn [from_option id]; [|done].
      rewrite (Hdisk name old Hold), Ho.
      by rewrite bool_decide_eq_true_2.
    + intros Hlog. rewrite (Hdisk path log Hlog), Ho.
      by rewrite bool_decide_eq_false_2 by congruence.
  - intros path. by rewrite file_open_close_file.
Qed.

Lemma device_inv_button_pressed s filename iso now :
  device_inv s → device_inv (Device.button_pressed s filename iso now).
Proof.
  intros Hinv. unfold Device.button_pressed.
  destruct (Device.logging_active s) eqn:Hact.
  - by apply device_inv_stop.
  - by apply device_inv_start.
Qed.

Lemma device_inv_step s e :
  device_inv s → ∃ s', Device.step s e = Some s' ∧ device_inv s'.
Proof.
  intros Hinv. destruct e as [dg|filename iso now|now|now]; cbn [Device.step].
  - eexists. split; [done|]. by apply device_inv_udp_receive.
  - eexists. split; [done|]. by apply device_inv_button_pressed.
  - by apply device_inv_update.
  - eexists. split; [done|]. by apply device_inv_cleanup.
Qed.

Lemma device_inv_run events : ∀ s,
  device_inv s → ∃ s', Device.run s events = Some s' ∧ device_inv s'.
Proof.
  induction events as [|e events IH]; intros s Hinv; [by exists s|].
  cbn [Device.run]. destruct (device_inv_step s e Hinv) as (s1 & -> & Hs1).
  cbn [mbind option_bind]. by apply IH.
Qed.


(** X2. Along every run of the device the live buffer and the session
    buffer hold at most [MAX_DATA_POINTS] points, all of them readings of
    nodes of [ip_led_map], and at most one node is flagged as master. *)
Theorem device_buffers_stay_bounded (events : list Device.Event) :
  ∃ s,
    Device.run Device.initial events = Some s
    ∧ (length (Device.graph_data_unified s) ≤ Device.MAX_DATA_POINTS)%nat
    ∧ (length (Device.session_data s) ≤ Device.MAX_DATA_POINTS)%nat
    ∧ Forall (λ p, Device.ip p ∈ Device.known_ips)
        (Device.graph_data_unified s ++ Device.session_data s)
    ∧ (∀ i j, Device.node_is_master s !! i = Some true →
              Device.node_is_master s !! j = Some true → i = j).
Proof.
  destruct (device_inv_run events Device.initial device_inv_initial)
    as (s & Hrun & [_ _ [_ Hone] _ _ Hg Hgl Hsd Hsl _ _ _ _ _]).
  exists s. split; [done|]. split; [done|]. split; [done|].
  split; [by apply Forall_app|done].
Qed.

(** ** The live buffer and the durations *)

Lemma popleft_older_head cutoff d p :
  head (Device.popleft_older cutoff d) = Some p → cutoff ≤ Device.timestamp p.
Proof.
  induction d as [|q d IH]; [done|]. cbn [Device.popleft_older].
  case_bool_decide; [done|]. intros [= <-]. lia.
Qed.

Lemma popleft_older_sorted cutoff d :
  Sorted (λ p q, Device.timestamp p ≤ Device.timestamp q) d →
  Forall (λ p, cutoff ≤ Device.timestamp p) (Device.popleft_older cutoff d).
Proof.
  intros Hs%Sorted_StronglySorted; [|intros ???; lia].
  induction Hs as [|q d Hs IH Hq]; [constructor|].
  cbn [Device.popleft_older]. case_bool_decide; [done|].
  constructor; [lia|]. eapply Forall_impl; [exact Hq|]. intros p Hp. cbn in Hp. lia.
Qed.

(** X3. Once data collection has started, [cleanup_old_data] removes from
    the front of the live buffer the points older than [TIME_WINDOW] and
    stops at the first point that is not: what it removes is older than
    the window, what it leaves starts with a point of the window, and when
    the buffer is in time order all it leaves is in the window. The session
    buffer is not touched. *)
Theorem cleanup_old_data_keeps_the_recent_points (s : Device.State)
    (now : Z) :
  is_Some (Device.graph_start_time s) →
  (∃ old,
     Device.graph_data_unified s
     = old ++ Device.graph_data_unified (Device.cleanup_old_data s now)
     ∧ Forall (λ p, Device.timestamp p < now - Device.TIME_WINDOW) old)
  ∧ (∀ p, head (Device.graph_data_unified (Device.cleanup_old_data s now))
          = Some p →
          now - Device.TIME_WINDOW ≤ Device.timestamp p)
  ∧ (Sorted (λ p q, Device.timestamp p ≤ Device.timestamp q)
       (Device.graph_data_unified s) →
     Forall (λ p, now - Device.TIME_WINDOW ≤ Device.timestamp p)
       (Device.graph_data_unified (Device.cleanup_old_data s now)))
  ∧ Device.session_data (Device.cleanup_old_data s now)
    = Device.session_data s.
Proof.
  intros [start Hstart]. unfold Device.cleanup_old_data. rewrite Hstart.
  cbn [Device.set_graph_data_unified Device.graph_data_unified
       Device.session_data].
  split; [apply popleft_older_suffix|]. split; [apply popleft_older_head|].
  split; [apply popleft_older_sorted|done].
Qed.

Lemma scan_points_masters cutoff points : ∀ sc,
  Device.scan_points cutoff sc points
  = Device.scan_points cutoff sc
      (filter (λ p, Device.is_master p = true) points).
Proof.
  induction points as [|p points IH]; intros sc; [done|].
  rewrite filter_cons. destruct (Device.is_master p) eqn:Hm.
  - rewrite decide_True by done. cbn [Device.scan_points].
    destruct (Device.scan_point cutoff sc p) as [sc'|]; [|done].
    cbn [mbind option_bind]. apply IH.
  - rewrite decide_False by done. cbn [Device.scan_points].
    unfold Device.scan_point. rewrite Hm, andb_false_r.
    cbn [mbind option_bind]. apply IH.
Qed.

(** X4. A reading that is not a master reading never counts: the durations
    [update_master_duration] computes from a buffer are the ones it
    computes from the master readings of the buffer alone. A reading with
    which a node gives up its role does not end the interval of that
    node. *)
Theorem readings_of_non_masters_do_not_count (d : gmap string Z)
    (points : list Device.Point) (cutoff now : Z) :
  Device.compute_durations d points cutoff now
  = Device.compute_durations d
      (filter (λ p, Device.is_master p = true) points) cutoff now.
Proof. unfold Device.compute_durations. by rewrite scan_points_masters. Qed.

(** X5. Between two updates with no reading in between, the node of the
    latest master reading of the session gains the time that has passed
    and every other node of [ip_led_map] keeps its duration. The result of
    an update depends on the session buffer and the clock, not on the
    durations stored before. *)
Theorem durations_advance_with_the_clock (s : Device.State)
    (cutoff now later : Z) :
  Device.logging_active s = true →
  Device.session_start_time s = Some cutoff →
  Forall (λ p, Device.ip p ∈ Device.known_ips) (Device.session_data s) →
  ∃ s1 s2,
    Device.update_master_duration s now = Some s1
    ∧ Device.update_master_duration s1 later = Some s2
    ∧ ∀ k, k ∈ Device.known_ips →
        Device.master_duration_data s1 !! k
        = Some (live_duration k cutoff now (Device.session_data s))
        ∧ Device.master_duration_data s2 !! k
          = Some (live_duration k cutoff now (Device.session_data s)
                  + if bool_decide
                         (fst <$> last (samples cutoff (Device.session_data s))
                          = Some k)
                    then later - now else 0).
Proof.
  intros Hact Hstart Hknown.
  assert (∀ p, p ∈ Device.session_data s → Device.is_master p = true →
               cutoff ≤ Device.timestamp p → Device.ip p ∈ Device.known_ips)
    as Hpts.
  { intros p Hp _ _. by apply (proj1 (Forall_forall _ _) Hknown). }
  destruct (compute_durations_credit (Device.master_duration_data s)
              (Device.session_data s) cutoff now Hpts) as (live1 & Hc1 & H1).
  destruct (compute_durations_credit live1 (Device.session_data s) cutoff
              later Hpts) as (live2 & Hc2 & H2).
  exists (Device.set_master_duration_data s live1),
         (Device.set_master_duration_data
            (Device.set_master_duration_data s live1) live2).
  split; [|split].
  { rewrite (update_master_duration_active s now cutoff) by done.
    by rewrite Hc1. }
  { rewrite (update_master_duration_active _ later cutoff) by done.
    cbn [Device.set_master_duration_data Device.master_duration_data
         Device.session_data]. by rewrite Hc2. }
  intros k Hk.
  cbn [Device.set_master_duration_data Device.master_duration_data].
  rewrite (H1 k Hk), (H2 k Hk). unfold live_duration. split; [done|].
  f_equal. destruct (last (samples cutoff (Device.session_data s)))
    as [[m t]|]; cbn [open_credit fmap option_fmap option_map fst].
  - destruct (decide (m = k)) as [->|Hne].
    + rewrite !bool_decide_eq_true_2 by done. lia.
    + rewrite !bool_decide_eq_false_2 by congruence. lia.
  - rewrite bool_decide_eq_false_2 by done. lia.
Qed.

(** ** The display *)









(** ** The snapshot sent to the web server *)








(** * Further properties: the analyzer *)

Lemma sort_points_Permutation points : Server.sort_points points ≡ₚ points.
Proof. apply sort_by_Permutation. Qed.

Lemma sort_points_in_time_order points :
  Sorted by_timestamp (Server.sort_points points).
Proof.
  unfold Server.sort_points.
  assert (Sorted (λ p q, bool_decide (Server.timestamp p ≤ Server.timestamp q)
                         = true)
            (Py.sort_by
               (λ p q, bool_decide (Server.timestamp p ≤ Server.timestamp q))
               points)) as Hsorted.
  { apply sort_by_Sorted. intros p q.
    destruct (decide (Server.timestamp p ≤ Server.timestamp q)).
    - left. by apply bool_decide_eq_true_2.
    - right. apply bool_decide_eq_true_2. lia. }
  induction Hsorted as [|p l _ IH Hhd]; [constructor|].
  constructor; [done|]. destruct Hhd as [|q l Hpq]; constructor.
  by apply bool_decide_eq_true_1 in Hpq.
Qed.

Lemma sorted_head_least (l : list Server.Point) p q :
  Sorted by_timestamp l → head l = Some p → q ∈ l →
  Server.timestamp p ≤ Server.timestamp q.
Proof.
  intros Hs%Sorted_StronglySorted; [|intros ???; unfold by_timestamp; lia].
  destruct Hs as [|x l Hs Hx]; [done|]. intros [= ->].
  intros [->|Hq]%elem_of_cons; [lia|].
  by apply (proj1 (Forall_forall _ _) Hx).
Qed.

Lemma sorted_last_greatest (l : list Server.Point) p q :
  Sorted by_timestamp l → last l = Some p → q ∈ l →
  Server.timestamp q ≤ Server.timestamp p.
Proof.
  intros Hs%Sorted_StronglySorted; [|intros ???; unfold by_timestamp; lia].
  induction Hs as [|x l Hs IH Hx]; [done|].
  destruct l as [|y l].
  - intros [= ->] ->%list_elem_of_singleton. lia.
  - change (last (x :: y :: l)) with (last (y :: l)). intros Hlast.
    intros [->|Hq]%elem_of_cons; [|by apply IH].
    apply (proj1 (Forall_forall _ _) Hx). by apply last_Some_elem_of.
Qed.

Lemma analyze_points_fields points nodes a :
  Server.analyze_points points nodes = Some a →
  ∃ acc first final,
    Server.info_scan (Server.initial_info nodes, Server.mkLast None None)
      (Server.sort_points points) = Some acc
    ∧ head (Server.sort_points points) = Some first
    ∧ last (Server.sort_points points) = Some final
    ∧ a = Server.mkAnalysis (Server.sort_points points)
            (Server.format_durations nodes acc.1)
            (Server.timestamp first) (Server.timestamp final)
            (Server.timestamp final - Server.timestamp first)
            (length (Server.sort_points points))
            (size (Server.format_durations nodes acc.1)).
Proof.
  unfold Server.analyze_points. destruct points as [|p points]; [done|].
  cbn zeta.
  destruct (Server.info_scan _ _) as [acc|]; [|done].
  cbn [mbind option_bind]. intros [= <-].
  assert (Server.sort_points (p :: points) ≠ []) as Hne.
  { intros Hnil. pose proof (sort_points_Permutation (p :: points)) as Hperm.
    rewrite Hnil in Hperm. by apply Permutation_nil_cons in Hperm. }
  destruct (head (Server.sort_points (p :: points))) as [first|] eqn:Hhead;
    [|by apply head_None in Hhead].
  destruct (last (Server.sort_points (p :: points))) as [final|] eqn:Hlast;
    [|by apply last_None in Hlast].
  by exists acc, first, final.
Qed.

(** X8. The analysis of a log lists the data rows the parser accepted, all
    of them and in ascending order of their timestamps whatever their
    order in the file; its start and end are the least and the greatest
    timestamp, its duration is their difference and is not negative, and
    its counts are the numbers of rows and of reported masters. *)
Theorem analysis_lists_the_rows_in_time_order (iso : string → option Z)
    (fs : gmap string Server.FileContent) (filepath : string)
    (a : Server.Analysis) :
  Server.analyze_log_file iso fs filepath = Some a →
  ∃ lines,
    fs !! filepath = Some (Server.Lines lines)
    ∧ Server.data_points a
      ≡ₚ Server.parsed_points (Server.parse_lines iso lines)
    ∧ Sorted by_timestamp (Server.data_points a)
    ∧ (∀ p, p ∈ Server.data_points a →
            Server.start_time a ≤ Server.timestamp p ≤ Server.end_time a)
    ∧ Server.duration a = Server.end_time a - Server.start_time a
    ∧ 0 ≤ Server.duration a
    ∧ Server.total_points a
      = length (Server.parsed_points (Server.parse_lines iso lines))
    ∧ Server.num_masters a = size (Server.master_durations a).
Proof.
  unfold Server.analyze_log_file.
  destruct (fs !! filepath) as [[|lines]|]; [done| |done].
  cbn zeta. intros Ha. exists lines. split; [done|].
  apply analyze_points_fields in Ha
    as (acc & first & final & _ & Hhead & Hlast & ->).
  cbn [Server.data_points Server.start_time Server.end_time Server.duration
       Server.total_points Server.num_masters Server.master_durations].
  pose proof (sort_points_in_time_order
                (Server.parsed_points (Server.parse_lines iso lines)))
    as Hsorted.
  split; [apply sort_points_Permutation|]. split; [done|].
  split; [|split; [done|split; [|split; [|done]]]].
  - intros p Hp. split.
    + by apply (sorted_head_least _ first p Hsorted).
    + by apply (sorted_last_greatest _ final p Hsorted).
  - assert (Server.timestamp first ≤ Server.timestamp final); [|lia].
    apply (sorted_head_least _ first final Hsorted Hhead).
    by apply last_Some_elem_of.
  - by rewrite sort_points_Permutation.
Qed.

(** ** The durations of an analysis *)

Lemma duration_for_ip_step_last target d1 d2 last p :
  (Server.duration_for_ip_step target (d1, last) p).2
  = (Server.duration_for_ip_step target (d2, last) p).2.
Proof. unfold Server.duration_for_ip_step. by destruct (Server.is_master p). Qed.

(** The scan of the analyzer computes, for every node, what
    [calculate_master_duration_for_ip] computes for it. *)
Lemma info_scan_running points : ∀ infos last infos' last',
  Server.info_scan (infos, last) points = Some (infos', last') →
  ∀ k i', infos' !! k = Some i' →
    ∃ i, infos !! k = Some i
         ∧ Server.info_name i' = Server.info_name i
         ∧ foldl (Server.duration_for_ip_step k) (Server.info_duration i, last)
             points
           = (Server.info_duration i', last').
Proof.
  induction points as [|p points IH]; intros infos last infos' last' Hscan k i'.
  - injection Hscan as <- <-. intros Hi'. by exists i'.
  - cbn [Server.info_scan] in Hscan. cbn [foldl].
    unfold Server.info_step, Server.duration_for_ip_step in *.
    cbn [fst snd] in *. destruct (Server.is_master p).
    + destruct (bool_decide (Server.last_master_ip last = Some (Server.ip p))
                && Py.truthy (Server.last_time last)) eqn:Hcond.
      * unfold Server.bump in Hscan.
        destruct (infos !! Server.ip p) as [i0|] eqn:Hi0; [|done].
        cbn [mbind option_bind] in Hscan. intros Hi'.
        destruct (IH _ _ _ _ Hscan k i' Hi') as (i1 & Hi1 & Hname & Hfold).
        destruct (decide (k = Server.ip p)) as [->|Hne].
        -- rewrite lookup_insert_eq in Hi1. injection Hi1 as <-.
           exists i0. split; [done|]. split; [done|].
           by rewrite bool_decide_eq_true_2 by done.
        -- rewrite lookup_insert_ne in Hi1 by done.
           exists i1. split; [done|]. split; [done|].
           by rewrite bool_decide_eq_false_2, andb_false_r by done.
      * cbn [mbind option_bind] in Hscan. intros Hi'.
        destruct (IH _ _ _ _ Hscan k i' Hi') as (i1 & Hi1 & Hname & Hfold).
        exists i1. split; [done|]. by split.
    + cbn [mbind option_bind] in Hscan. intros Hi'.
      destruct (IH _ _ _ _ Hscan k i' Hi') as (i1 & Hi1 & Hname & Hfold).
      exists i1. split; [done|]. split; [done|]. by destruct last.
Qed.

Lemma initial_info_zero nodes k i :
  Server.initial_info nodes !! k = Some i → Server.info_duration i = 0.
Proof.
  unfold Server.initial_info.
  assert (∀ m0 : gmap string Server.Info,
            (∀ j x, m0 !! j = Some x → Server.info_duration x = 0) →
            foldl (λ m e, <[e.1 := Server.mkInfo e.2 0 0]> m) m0 nodes !! k
            = Some i → Server.info_duration i = 0) as H.
  { induction nodes as [|e nodes IH]; intros m0 Hm0; cbn [foldl].
    - apply Hm0.
    - apply IH. intros j x. destruct (decide (j = e.1)) as [->|Hne].
      + rewrite lookup_insert_eq. by intros [= <-].
      + rewrite lookup_insert_ne by done. apply Hm0. }
  apply H. intros j x. by rewrite lookup_empty.
Qed.

Lemma format_durations_entries nodes (infos : gmap string Server.Info) key e :
  Server.format_durations nodes infos !! key = Some e →
  ∃ i, infos !! Server.entry_ip e = Some i
       ∧ 0 < Server.info_duration i
       ∧ Server.entry_duration e = Server.info_duration i
       ∧ Server.entry_name e = Server.info_name i
       ∧ key = Server.entry_key (Server.entry_name e) (Server.entry_ip e).
Proof.
  unfold Server.format_durations.
  assert (∀ m0 : gmap string Server.Entry,
    (∀ key e, m0 !! key = Some e →
       ∃ i, infos !! Server.entry_ip e = Some i
            ∧ 0 < Server.info_duration i
            ∧ Server.entry_duration e = Server.info_duration i
            ∧ Server.entry_name e = Server.info_name i
            ∧ key = Server.entry_key (Server.entry_name e)
                      (Server.entry_ip e)) →
    ∀ key e,
      foldl (λ m n,
               match infos !! n.1 with
               | Some i =>
                   if bool_decide (0 < Server.info_duration i)
                   then <[Server.entry_key (Server.info_name i) n.1 :=
                            Server.mkEntry n.1 (Server.info_name i)
                              (Server.info_duration i) (Server.info_count i)]> m
                   else m
               | None => m
               end) m0 nodes !! key = Some e →
      ∃ i, infos !! Server.entry_ip e = Some i
           ∧ 0 < Server.info_duration i
           ∧ Server.entry_duration e = Server.info_duration i
           ∧ Server.entry_name e = Server.info_name i
           ∧ key = Server.entry_key (Server.entry_name e)
                     (Server.entry_ip e)) as H.
  { induction nodes as [|n nodes IH]; intros m0 Hm0; cbn [foldl]; [done|].
    apply IH. destruct (infos !! n.1) as [i|] eqn:Hi; [|done].
    case_bool_decide as Hpos; [|done]. intros key' e'.
    destruct (decide (key' = Server.entry_key (Server.info_name i) n.1))
      as [->|Hne].
    - rewrite lookup_insert_eq. intros [= <-]. exists i.
      by cbn [Server.entry_ip Server.entry_duration Server.entry_name].
    - rewrite lookup_insert_ne by done. apply Hm0. }
  apply H. intros key' e'. by rewrite lookup_empty.
Qed.

(** X9. Every entry of the master durations of an analysis has a positive
    duration: a node whose duration is zero gets no entry. The duration of
    an entry is what [calculate_master_duration_for_ip], the running
    duration of the recorder, gives for the node of the entry on the data
    points of the analysis, and the entry is stored under the name and the
    address it carries. *)
Theorem analysis_entries_are_positive_running_durations
    (iso : string → option Z) (fs : gmap string Server.FileContent)
    (filepath key : string) (a : Server.Analysis) (e : Server.Entry) :
  Server.analyze_log_file iso fs filepath = Some a →
  Server.master_durations a !! key = Some e →
  0 < Server.entry_duration e
  ∧ Server.entry_duration e
    = Server.calculate_master_duration_for_ip (Server.data_points a)
        (Server.entry_ip e)
  ∧ key = Server.entry_key (Server.entry_name e) (Server.entry_ip e).
Proof.
  unfold Server.analyze_log_file.
  destruct (fs !! filepath) as [[|lines]|]; [done| |done].
  cbn zeta. intros Ha He.
  apply analyze_points_fields in Ha
    as ([infos' last'] & first & final & Hscan & _ & _ & ->).
  cbn [Server.master_durations Server.data_points fst] in *.
  apply format_durations_entries in He
    as (i' & Hi' & Hpos & Hduration & _ & Hkey).
  destruct (info_scan_running _ _ _ _ _ Hscan _ _ Hi')
    as (i & Hi & _ & Hfold).
  apply initial_info_zero in Hi.
  unfold Server.calculate_master_duration_for_ip.
  rewrite Hi in Hfold. rewrite Hfold. cbn [fst].
  split; [lia|]. by split.
Qed.

(** * Further properties: the recorder of the server *)

(** ** The summary durations *)

Lemma credit_lookup m x (d : gmap string Z) k :
  default 0 (Server.credit m x d !! k)
  = default 0 (d !! k) + (if bool_decide (m = k) then x else 0).
Proof.
  unfold Server.credit. case_bool_decide as Hmk.
  - subst. by rewrite lookup_insert_eq.
  - rewrite lookup_insert_ne by done. lia.
Qed.

Lemma credit_is_Some m x (d : gmap string Z) k :
  is_Some (Server.credit m x d !! k) ↔ is_Some (d !! k) ∨ m = k.
Proof.
  unfold Server.credit. destruct (decide (m = k)) as [->|Hne].
  - rewrite lookup_insert_eq. split; [by right|by eexists].
  - rewrite lookup_insert_ne by done. naive_solver.
Qed.

Lemma durations_from_buffer_hold (start now : Z) buffer : ∀ d prev,
  start ≠ 0 →
  (∀ m t, prev = Some (m, t) → t ≠ 0 ∧ m ≠ "") →
  (∀ p, p ∈ buffer → Server.is_master p = true →
        Server.timestamp p ≠ 0 ∧ Server.ip p ≠ "") →
  ∀ k,
    let acc := foldl Server.durations_step
                 (d, Server.mkLast (fst <$> prev) (snd <$> prev)) buffer in
    let result :=
      match Server.last_master_ip acc.2, Server.last_time acc.2 with
      | Some m, Some t =>
          if Server.truthy_str (Some m) && Py.truthy (Some t)
             && Py.truthy (Some start)
          then Server.credit m (now - t) acc.1 else acc.1
      | _, _ => acc.1
      end in
    default 0 (result !! k)
    = default 0 (d !! k)
      + hold_credit k now (option_list prev ++ master_samples buffer)
    ∧ (is_Some (result !! k)
       ↔ is_Some (d !! k)
         ∨ k ∈ (option_list prev ++ master_samples buffer).*1).
Proof.
  induction buffer as [|p buffer IH]; intros d prev Hstart Hprev Hbuffer k.
  - cbn [foldl]. cbn zeta. cbn [snd fst Server.last_master_ip
      Server.last_time].
    change (master_samples []) with ([] : list (string * Z)).
    rewrite app_nil_r.
    destruct prev as [[m t]|]; cbn [fmap option_fmap option_map fst snd
      option_list option_rect app hold_credit hold_end].
    + destruct (Hprev m t eq_refl) as [Ht Hm].
      unfold Server.truthy_str, Py.truthy.
      rewrite bool_decide_eq_false_2 by done.
      assert ((t =? 0) = false) as -> by lia.
      assert ((start =? 0) = false) as -> by lia.
      cbn [negb andb]. rewrite credit_lookup, credit_is_Some.
      split; [lia|]. rewrite fmap_cons, list_elem_of_singleton.
      cbn [fst]. naive_solver.
    + split; [lia|]. cbn [fmap list_fmap]. rewrite elem_of_nil. naive_solver.
  - cbn [foldl]. rewrite master_samples_cons.
    destruct (Server.is_master p) eqn:Hmaster.
    + destruct (Hbuffer p) as [Ht Hip]; [by left|done|].
      assert (∃ d1,
        Server.durations_step
          (d, Server.mkLast (fst <$> prev) (snd <$> prev)) p
        = (d1, Server.mkLast
                 (fst <$> Some (Server.ip p, Server.timestamp p))
                 (snd <$> Some (Server.ip p, Server.timestamp p)))
        ∧ ∀ j, default 0 (d1 !! j)
               = default 0 (d !! j)
                 + match prev with
                   | Some (m, t) =>
                       if bool_decide (m = j)
                       then Server.timestamp p - t else 0
                   | None => 0
                   end
               ∧ (is_Some (d1 !! j)
                  ↔ is_Some (d !! j)
                    ∨ match prev with
                      | Some (m, _) => m = j
                      | None => False
                      end)) as (d1 & -> & Hd1).
      { unfold Server.durations_step. rewrite Hmaster.
        destruct prev as [[m t]|];
          cbn [fmap option_fmap option_map fst snd Server.last_master_ip
               Server.last_time].
        - destruct (Hprev m t eq_refl) as [Htm Hm].
          unfold Server.truthy_str, Py.truthy.
          rewrite bool_decide_eq_false_2 by done.
          assert ((t =? 0) = false) as -> by lia.
          cbn [negb andb]. eexists. split; [done|]. intros j.
          by rewrite credit_lookup, credit_is_Some.
        - exists d. split; [done|]. intros j. split; [lia|naive_solver]. }
      destruct (IH d1 (Some (Server.ip p, Server.timestamp p)) Hstart)
        with (k := k) as [Hvalue Hdom].
      { by intros m t [= <- <-]. }
      { intros q Hq. apply Hbuffer. by right. }
      cbn zeta in Hvalue, Hdom. cbn zeta. rewrite Hvalue, Hdom.
      destruct (Hd1 k) as [-> ->].
      destruct prev as [[m t]|];
        cbn [option_list option_rect app hold_credit hold_end].
      * split; [lia|]. rewrite !fmap_cons, !elem_of_cons. cbn [fst].
        naive_solver.
      * split; [lia|]. naive_solver.
    + assert (Server.durations_step
                (d, Server.mkLast (fst <$> prev) (snd <$> prev)) p
              = (d, Server.mkLast (fst <$> prev) (snd <$> prev))) as ->.
      { unfold Server.durations_step. by rewrite Hmaster. }
      apply IH; [done..|]. intros q Hq. apply Hbuffer. by right.
Qed.

(** X10. The summary of the server credits every master reading up to the
    next master reading, of whichever node, and the last one up to the
    stop: for a session with a start time and with master readings whose
    timestamps are not 0 and whose addresses are not empty,
    [calculate_master_durations_from_buffer] gives a node the sum of these
    holds, and it has an entry exactly for the nodes with a master
    reading. *)
Theorem server_summary_credits_each_master_until_the_next
    (buffer : list Server.Point) (start now : Z) (k : string) :
  start ≠ 0 →
  (∀ p, p ∈ buffer → Server.is_master p = true →
        Server.timestamp p ≠ 0 ∧ Server.ip p ≠ "") →
  default 0
    (Server.calculate_master_durations_from_buffer buffer (Some start) now
     !! k)
  = hold_credit k now (master_samples buffer)
  ∧ (is_Some
       (Server.calculate_master_durations_from_buffer buffer (Some start) now
        !! k)
     ↔ k ∈ (master_samples buffer).*1).
Proof.
  intros Hstart Hbuffer.
  destruct (durations_from_buffer_hold start now buffer ∅ None Hstart)
    with (k := k) as [Hvalue Hdom]; [done..|].
  cbn zeta in Hvalue, Hdom.
  cbn [fmap option_fmap option_map option_list option_rect app] in Hvalue, Hdom.
  unfold Server.calculate_master_durations_from_buffer. cbn zeta.
  rewrite Hvalue, Hdom, lookup_empty. split; [cbn; lia|].
  split; [|by right]. intros [[? [=]]|?]; done.
Qed.

(** ** The snapshots the server receives *)








(** ** The header line *)

Lemma parse_lines_without_header iso lines :
  Forall (λ raw, Py.startswith (Py.strip raw) "timestamp," = false) lines →
  Server.parsed_points (Server.parse_lines iso lines) = [].
Proof.
  unfold Server.parse_lines.
  assert (∀ st,
            Server.in_data_section st = false →
            Server.parsed_points st = [] →
            Forall (λ raw, Py.startswith (Py.strip raw) "timestamp," = false)
              lines →
            Server.parsed_points (foldl (Server.parse_line iso) st lines) = [])
    as H; [|by apply H].
  induction lines as [|raw lines IH]; intros st Hsection Hpoints Hall; [done|].
  apply Forall_cons in Hall as [Hraw Hall]. cbn [foldl].
  assert (Server.parse_line iso st raw = st) as ->; [|by apply IH].
  unfold Server.parse_line. cbn zeta. rewrite Hraw, Hsection.
  by destruct (_ || _).
Qed.

(** X13. The analyzer reads no data row before the header line: a file
    none of whose lines starts, once stripped, with the first column name
    and a comma gets no analysis, whatever rows it holds. *)
Theorem no_row_is_read_without_the_header (iso : string → option Z)
    (fs : gmap string Server.FileContent) (filepath : string)
    (lines : list string) :
  fs !! filepath = Some (Server.Lines lines) →
  Forall (λ raw, Py.startswith (Py.strip raw) "timestamp," = false) lines →
  Server.analyze_log_file iso fs filepath = None.
Proof.
  intros Hfile Hlines. unfold Server.analyze_log_file. rewrite Hfile.
  cbn zeta. by rewrite (parse_lines_without_header iso lines Hlines).
Qed.

(** ** The summary rows *)

Lemma masters_match_initial : masters_match Server.initial.
Proof.
  intros k. cbn [Server.initial Server.all_masters_in_session
    Server.session_data_buffer]. split.
  - by intros ?%elem_of_empty.
  - by intros (p & ?%elem_of_nil & _).
Qed.

Lemma masters_match_start s path iso start :
  masters_match (Server.start_local_logging_session s path iso start).
Proof.
  intros k. cbn [Server.start_local_logging_session
    Server.all_masters_in_session Server.session_data_buffer]. split.
  - by intros ?%elem_of_empty.
  - by intros (p & ?%elem_of_nil & _).
Qed.

Lemma masters_match_stop s now iso :
  masters_match s → masters_match (Server.stop_local_logging_session s now iso).
Proof.
  intros Hs. unfold Server.stop_local_logging_session.
  by destruct (Server.file_open (Server.current_log_file s)).
Qed.

Lemma masters_match_log_if_new now s point :
  masters_match s → masters_match (Server.log_if_new now s point).
Proof.
  intros Hs. unfold Server.log_if_new.
  destruct (Server.already_logged _ _); [done|].
  unfold Server.log_data_point_to_file.
  destruct (Server.file_open (Server.current_log_file s)); [|done].
  intros k. cbn zeta. cbn [Server.all_masters_in_session
    Server.session_data_buffer]. specialize (Hs k).
  destruct (Server.is_master point) eqn:Hmaster.
  - rewrite elem_of_union, elem_of_singleton, Hs. split.
    + intros [->|(p & Hp & Hm & Hk)].
      * exists point. split; [|done]. apply elem_of_app. right. by left.
      * exists p. split; [|done]. apply elem_of_app. by left.
    + intros (p & [Hp | ->%list_elem_of_singleton]%elem_of_app & Hm & Hk).
      * right. by exists p.
      * by left.
  - rewrite Hs. split.
    + intros (p & Hp & Hm & Hk). exists p. split; [|done].
      apply elem_of_app. by left.
    + intros (p & [Hp | ->%list_elem_of_singleton]%elem_of_app & Hm & Hk).
      * by exists p.
      * congruence.
Qed.

Lemma masters_match_set_latest s active dir :
  masters_match s → masters_match (Server.set_latest s active dir).
Proof. done. Qed.

Lemma masters_match_receive_data s c r :
  masters_match s → masters_match (Server.receive_data s c r).
Proof.
  intros Hs. destruct r as [action|data]; cbn [Server.receive_data].
  - repeat case_bool_decide; [| |done].
    + apply masters_match_set_latest, masters_match_start.
    + by apply masters_match_set_latest, masters_match_stop.
  - cbn zeta. case_match; [|by apply masters_match_set_latest].
    generalize (default [] (Server.p_graph_data data)). intros points.
    assert (masters_match
      (Server.set_latest s
         (default (Server.latest_logging_active s)
            (Server.p_logging_active data))
         match Server.p_log_directory data with
         | Some d => Some d
         | None => Server.rpi_log_files_directory s
         end)) as Hs0 by by apply masters_match_set_latest.
    revert Hs0. generalize (Server.set_latest s
      (default (Server.latest_logging_active s)
         (Server.p_logging_active data))
      match Server.p_log_directory data with
      | Some d => Some d
      | None => Server.rpi_log_files_directory s
      end). intros s0. revert s0.
    induction points as [|p points IH]; intros s0 Hs0; [done|].
    cbn [foldl]. by apply IH, masters_match_log_if_new.
Qed.

Lemma masters_match_serve rs : ∀ s,
  masters_match s → masters_match (Server.serve s rs).
Proof.
  induction rs as [|[c r] rs IH]; intros s Hs; [done|].
  apply IH. by apply masters_match_receive_data.
Qed.

Lemma summary_ips_footer s now iso :
  summary_ips (Server.footer s now iso)
  = Server.sorted_masters (Server.all_masters_in_session s).
Proof.
  unfold Server.footer, summary_ips. rewrite omap_app.
  cbn [omap list_omap summary_ip app].
  induction (Server.sorted_masters (Server.all_masters_in_session s))
    as [|k l IH]; [done|].
  rewrite fmap_cons. cbn [omap list_omap summary_ip]. by rewrite IH.
Qed.

Lemma sorted_masters_ascending (masters : gset string) :
  Sorted (λ a b, String.leb a b = true) (Server.sorted_masters masters)
  ∧ NoDup (Server.sorted_masters masters)
  ∧ ∀ k, k ∈ Server.sorted_masters masters ↔ k ∈ masters.
Proof.
  unfold Server.sorted_masters. split; [|split].
  - apply sort_by_Sorted, String.leb_total.
  - rewrite sort_by_Permutation. apply NoDup_elements.
  - intros k. rewrite sort_by_Permutation. apply elem_of_elements.
Qed.

(** X14. When the server stops a session, the footer it appends to the
    open log has one summary row for each node that has a master reading
    in the session buffer, and for no other node; the rows are in
    ascending order of the addresses, and no address has two rows. *)
Theorem server_footer_has_one_row_per_master
    (rs : list (Server.Clock * Server.Request)) (c : Server.Clock)
    (path : string) (log : list Server.LogLine) :
  Server.file_open (Server.current_log_file (Server.serve Server.initial rs))
  = Some path →
  Server.disk (Server.serve Server.initial rs) !! path = Some log →
  ∃ rows,
    Server.disk
      (Server.receive_data (Server.serve Server.initial rs) c
         (Server.ButtonAction "stop")) !! path
    = Some (log ++ rows)
    ∧ Sorted (λ a b, String.leb a b = true) (summary_ips rows)
    ∧ NoDup (summary_ips rows)
    ∧ ∀ k, k ∈ summary_ips rows
           ↔ ∃ p, p ∈ Server.session_data_buffer
                        (Server.serve Server.initial rs)
                  ∧ Server.is_master p = true ∧ Server.ip p = k.
Proof.
  intros Hopen Hlog.
  pose proof (masters_match_serve rs Server.initial masters_match_initial)
    as Hmasters.
  exists (Server.footer (Server.serve Server.initial rs) (Server.now c)
            (Server.iso_now c)).
  destruct (sorted_masters_ascending
              (Server.all_masters_in_session (Server.serve Server.initial rs)))
    as (Hsorted & Hnodup & Hin).
  rewrite summary_ips_footer. split; [|split; [done|split; [done|]]].
  - cbn [Server.receive_data]. rewrite bool_decide_eq_false_2 by done.
    rewrite bool_decide_eq_true_2 by done.
    unfold Server.stop_local_logging_session. rewrite Hopen.
    cbn [Server.set_latest Server.disk].
    destruct (footer_cons (Server.serve Server.initial rs) (Server.now c)
                (Server.iso_now c)) as (l & ls & Hfooter).
    rewrite Hfooter, write_lines_lookup, <- Hfooter.
    rewrite bool_decide_eq_true_2 by done. by rewrite Hlog.
  - intros k. rewrite Hin. apply Hmasters.
Qed.

(** ** The frame on the LED matrix *)






(** ** The summary rows of the device *)

Lemma device_masters_match_same s s' :
  Device.log_file s' = Device.log_file s →
  Device.disk s' = Device.disk s →
  Device.all_masters_in_session s' = Device.all_masters_in_session s →
  device_masters_match s → device_masters_match s'.
Proof. unfold device_masters_match. by intros -> -> ->. Qed.

Lemma device_masters_match_initial : device_masters_match Device.initial.
Proof. by intros path. Qed.

Lemma device_masters_match_start s filename iso start :
  device_masters_match (Device.start_logging_session s filename iso start).
Proof.
  intros path. unfold Device.start_logging_session. dev_simpl.
  cbn [Device.file_open]. intros [= <-] k. rewrite lookup_insert_eq.
  cbn [default from_option id device_rows omap list_omap device_row]. split.
  - by intros ?%elem_of_empty.
  - by intros (value & ?%elem_of_nil).
Qed.

Lemma device_masters_match_stop s now iso :
  device_masters_match s →
  device_masters_match (Device.stop_logging_session s now iso).
Proof.
  intros Hs. unfold Device.stop_logging_session.
  destruct (Device.logging_active s); [|done]. cbn zeta.
  intros path. dev_simpl.
  destruct (Device.file_open (Device.log_file s)) eqn:Hopen.
  - by rewrite file_open_close_file.
  - by rewrite Hopen.
Qed.

Lemma device_masters_match_log_data_point s ip value master iso now :
  device_masters_match s →
  device_masters_match (Device.log_data_point s ip value master iso now).
Proof.
  intros Hs. unfold Device.log_data_point.
  destruct (Device.logging_active s); [|done].
  destruct (Device.file_open (Device.log_file s)) as [name|] eqn:Hopen;
    [|done].
  intros path. dev_simpl. rewrite Hopen. intros [= <-] k.
  rewrite device_write_line_lookup, bool_decide_eq_true_2 by done.
  specialize (Hs name Hopen k). cbn [default from_option id] in *.
  unfold device_rows in *. rewrite omap_app.
  cbn [omap list_omap device_row].
  destruct master.
  - rewrite elem_of_union, elem_of_singleton, Hs. split.
    + intros [->|(v & Hv)].
      * exists value. apply elem_of_app. right. by apply elem_of_cons; left.
      * exists v. apply elem_of_app. by left.
    + intros (v & [Hv | [= -> ->]%list_elem_of_singleton]%elem_of_app).
      * right. by exists v.
      * by left.
  - rewrite Hs. split.
    + intros (v & Hv). exists v. apply elem_of_app. by left.
    + intros (v & [Hv | [=]%list_elem_of_singleton]%elem_of_app).
      by exists v.
Qed.

Lemma device_masters_match_udp_receive s dg :
  device_masters_match s → device_masters_match (Device.udp_receive s dg).
Proof.
  intros Hs. unfold Device.udp_receive, Device.handle_reading. cbn zeta.
  repeat case_match; try done;
    try apply device_masters_match_log_data_point;
    by apply (device_masters_match_same s).
Qed.

Lemma device_masters_match_step s e s' :
  Device.step s e = Some s' →
  device_masters_match s → device_masters_match s'.
Proof.
  destruct e as [dg|filename iso now|now|now]; cbn [Device.step].
  - intros [= <-]. apply device_masters_match_udp_receive.
  - intros [= <-] Hs. unfold Device.button_pressed.
    destruct (Device.logging_active s).
    + by apply device_masters_match_stop.
    + apply device_masters_match_start.
  - unfold Device.update_master_duration.
    destruct (Device.logging_active s); [|by intros [= <-]].
    destruct (Device.session_start_time s); [|by intros [= <-]].
    intros (d & _ & ->)%fmap_Some. by apply device_masters_match_same.
  - intros [= <-]. unfold Device.cleanup_old_data.
    case_match; [|done]. by apply device_masters_match_same.
Qed.

Lemma device_masters_match_run events : ∀ s s',
  Device.run s events = Some s' →
  device_masters_match s → device_masters_match s'.
Proof.
  induction events as [|e events IH]; intros s s'; cbn [Device.run].
  - by intros [= <-].
  - intros (s1 & Hstep & Hrun)%bind_Some Hs.
    by apply (IH s1 s' Hrun), (device_masters_match_step s e).
Qed.

Lemma device_summary_ips_footer s iso duration :
  device_summary_ips (Device.footer s iso duration)
  = Device.sorted_masters (Device.all_masters_in_session s).
Proof.
  unfold Device.footer, device_summary_ips. rewrite omap_app.
  cbn [omap list_omap device_summary_ip app].
  induction (Device.sorted_masters (Device.all_masters_in_session s))
    as [|k l IH]; [done|].
  rewrite fmap_cons. cbn [omap list_omap device_summary_ip]. by rewrite IH.
Qed.

(** X16. When the button is pressed while the device has a log open, the
    lines appended to the log hold one summary row for each node that has
    a master row in the log and for no other node, in ascending order of
    the addresses and with no address twice. A summary row carries the
    name of its node and the duration stored for it by the latest update
    of the durations: the press does not recompute it. *)
Theorem device_footer_has_one_row_per_master (events : list Device.Event)
    (filename : string) (iso now : Z) :
  ∃ s,
    Device.run Device.initial events = Some s
    ∧ ∀ path log,
        Device.file_open (Device.log_file s) = Some path →
        Device.disk s !! path = Some log →
        ∃ rows,
          Device.disk (Device.button_pressed s filename iso now) !! path
          = Some (log ++ rows)
          ∧ Sorted (λ a b, String.leb a b = true) (device_summary_ips rows)
          ∧ NoDup (device_summary_ips rows)
          ∧ (∀ k, k ∈ device_summary_ips rows
                  ↔ ∃ value, (k, value, true) ∈ device_rows log)
          ∧ ∀ ip name duration,
              Device.SummaryRow ip name duration ∈ rows →
              name = Device.name_of ip
              ∧ duration = default 0 (Device.master_duration_data s !! ip).
Proof.
  destruct (device_inv_run events Device.initial device_inv_initial)
    as (s & Hrun & [_ _ _ _ _ _ _ _ _ _ Hopen _ _ _]).
  pose proof (device_masters_match_run events _ _ Hrun
                device_masters_match_initial) as Hmatch.
  exists s. split; [done|]. intros path log Hpath Hlog.
  rewrite Hpath in Hopen.
  destruct (Device.logging_active s) eqn:Hactive; [|done].
  exists (Device.footer s iso
            (Device.elapsed_since (Device.session_start_time s) now)).
  rewrite device_summary_ips_footer.
  unfold Device.sorted_masters.
  split; [|split; [|split; [|split]]].
  - unfold Device.button_pressed, Device.stop_logging_session.
    rewrite Hactive, Hpath. cbn zeta. dev_simpl.
    destruct (device_footer_cons s iso
                (Device.elapsed_since (Device.session_start_time s) now))
      as (l & ls & Hfooter).
    rewrite Hfooter, device_write_lines_lookup, <- Hfooter.
    rewrite bool_decide_eq_true_2 by done. by rewrite Hlog.
  - apply sort_by_Sorted, String.leb_total.
  - rewrite sort_by_Permutation. apply NoDup_elements.
  - intros k. rewrite sort_by_Permutation, elem_of_elements.
    rewrite (Hmatch path Hpath k). by rewrite Hlog.
  - intros ip name duration. unfold Device.footer.
    intros [Hrow|Hrow]%elem_of_app.
    + repeat (apply elem_of_cons in Hrow as [[=]|Hrow]).
      by apply elem_of_nil in Hrow.
    + by apply list_elem_of_fmap in Hrow as (k & [= -> -> ->] & _).
Qed.

(** * Examples for the further properties *)

(** The clean-up of the live buffer of the chained session, 37 seconds
    after the start: the reading at [t0 + 5] is older than the window. *)
Lemma cleanup_old_data_keeps_the_recent_points_witness :
  (∀ p, head (Device.graph_data_unified
                (Device.cleanup_old_data Sample.chained_session
                   (Sample.t0 + 37))) = Some p →
        Sample.t0 + 37 - Device.TIME_WINDOW ≤ Device.timestamp p)
  ∧ Device.session_data
      (Device.cleanup_old_data Sample.chained_session (Sample.t0 + 37))
    = Device.session_data Sample.chained_session.
Proof.
  destruct (cleanup_old_data_keeps_the_recent_points Sample.chained_session
              (Sample.t0 + 37)) as (_ & Hhead & _ & Hsession).
  - vm_compute. by eexists.
  - split; [exact Hhead|exact Hsession].
Defined.

(** Two updates of the chained session, 12 and 20 seconds after its
    start. *)
Lemma durations_advance_with_the_clock_witness :
  ∃ s1 s2,
    Device.update_master_duration Sample.chained_session (Sample.t0 + 12)
    = Some s1
    ∧ Device.update_master_duration s1 (Sample.t0 + 20) = Some s2
    ∧ Device.master_duration_data s1 !! Sample.red = Some 7
    ∧ Device.master_duration_data s2 !! Sample.red = Some 15
    ∧ Device.master_duration_data s2 !! Sample.blue = Some 0.
Proof.
  destruct (durations_advance_with_the_clock Sample.chained_session Sample.t0
              (Sample.t0 + 12) (Sample.t0 + 20))
    as (s1 & s2 & H1 & H2 & Hlive).
  - vm_compute; reflexivity.
  - vm_compute; reflexivity.
  - compute_done.
  - exists s1, s2. split; [exact H1|]. split; [exact H2|].
    destruct (Hlive Sample.red) as [Hred1 Hred2]; [compute_done|].
    destruct (Hlive Sample.blue) as [_ Hblue2]; [compute_done|].
    rewrite Hred1, Hred2, Hblue2. repeat split; vm_compute; reflexivity.
Defined.

(** The analysis of the chained log. *)
Lemma analysis_lists_the_rows_in_time_order_witness :
  ∃ lines,
    Sample.files !! "webserver_logs/swarm_log_chained.csv"
    = Some (Server.Lines lines)
    ∧ Server.data_points Sample.chained_analysis
      ≡ₚ Server.parsed_points
           (Server.parse_lines Host.fromisoformat_timestamp lines)
    ∧ Sorted by_timestamp (Server.data_points Sample.chained_analysis).
Proof.
  destruct (analysis_lists_the_rows_in_time_order
              Host.fromisoformat_timestamp Sample.files
              "webserver_logs/swarm_log_chained.csv" Sample.chained_analysis)
    as (lines & Hfile & Hrows & Hsorted & _).
  - vm_compute; reflexivity.
  - exists lines. split; [exact Hfile|]. split; [exact Hrows|exact Hsorted].
Defined.

(** The entry of RED in the analysis of the chained log. *)
Lemma analysis_entries_are_positive_running_durations_witness :
  0 < Server.entry_duration Sample.red_entry
  ∧ Server.entry_duration Sample.red_entry
    = Server.calculate_master_duration_for_ip
        (Server.data_points Sample.chained_analysis)
        (Server.entry_ip Sample.red_entry)
  ∧ "RED (192.168.137.35)"
    = Server.entry_key (Server.entry_name Sample.red_entry)
        (Server.entry_ip Sample.red_entry).
Proof.
  apply (analysis_entries_are_positive_running_durations
           Host.fromisoformat_timestamp Sample.files
           "webserver_logs/swarm_log_chained.csv" "RED (192.168.137.35)"
           Sample.chained_analysis Sample.red_entry).
  - vm_compute; reflexivity.
  - vm_compute; reflexivity.
Defined.

(** The summary of the server for the interleaved readings: RED holds from
    [t0] to [t0 + 5] and from [t0 + 9] to the stop. *)
Lemma server_summary_credits_each_master_until_the_next_witness :
  default 0
    (Server.calculate_master_durations_from_buffer Sample.interleaved_buffer
       (Some Sample.t0) (Sample.t0 + 12) !! Sample.red)
  = hold_credit Sample.red (Sample.t0 + 12)
      (master_samples Sample.interleaved_buffer)
  ∧ (is_Some
       (Server.calculate_master_durations_from_buffer
          Sample.interleaved_buffer (Some Sample.t0) (Sample.t0 + 12)
        !! Sample.red)
     ↔ Sample.red ∈ (master_samples Sample.interleaved_buffer).*1).
Proof.
  apply (server_summary_credits_each_master_until_the_next
           Sample.interleaved_buffer Sample.t0 (Sample.t0 + 12) Sample.red).
  - discriminate.
  - intros p Hp _. unfold Sample.interleaved_buffer, Sample.t0 in Hp.
    repeat (apply elem_of_cons in Hp as [->|Hp];
            [cbn [Server.timestamp Server.ip]; split; [lia|discriminate]|]).
    by apply elem_of_nil in Hp.
Defined.

(** A file with rows and no header line gets no analysis. *)
Lemma no_row_is_read_without_the_header_witness :
  Server.analyze_log_file Host.fromisoformat_timestamp Sample.headless_files
    "webserver_logs/swarm_log_headless.csv" = None.
Proof.
  apply (no_row_is_read_without_the_header Host.fromisoformat_timestamp
           Sample.headless_files "webserver_logs/swarm_log_headless.csv"
           [ "# Session started: 2024-12-05T10:30:00" +:+ Sample.eol;
             "2024-12-05T10:30:05,192.168.137.35,RED,100,True,0.00,5.00"
               +:+ Sample.eol;
             "2024-12-05T10:30:08,192.168.137.35,RED,120,True,0.00,8.00"
               +:+ Sample.eol ]).
  - vm_compute; reflexivity.
  - repeat (apply Forall_cons; split; [vm_compute; reflexivity|]).
    apply Forall_nil_2.
Defined.

(** The footer of the recorded session of the server. *)
Lemma server_footer_has_one_row_per_master_witness :
  ∃ rows,
    Server.disk
      (Server.receive_data
         (Server.serve Server.initial Sample.recorded_session) Sample.clock2
         (Server.ButtonAction "stop")) !! Server.filepath Sample.clock1
    = Some ([Server.SessionStarted 100; Server.HeaderRow;
             Server.DataRow 105 Sample.red "RED" 100 true 0 0] ++ rows)
    ∧ NoDup (summary_ips rows)
    ∧ (Sample.red ∈ summary_ips rows).
Proof.
  destruct (server_footer_has_one_row_per_master Sample.recorded_session
              Sample.clock2 (Server.filepath Sample.clock1)
              [Server.SessionStarted 100; Server.HeaderRow;
               Server.DataRow 105 Sample.red "RED" 100 true 0 0])
    as (rows & Hdisk & _ & Hnodup & Hin).
  - vm_compute; reflexivity.
  - vm_compute; reflexivity.
  - exists rows. split; [exact Hdisk|]. split; [exact Hnodup|].
    apply Hin. exists Sample.red_point. split; [|split; reflexivity].
    vm_compute. apply elem_of_cons. by left.
Defined.
